(** * Verification of the structured-logging facade and of the log filter

    The development follows the Go packages of the repository:

    - [foundation/logger]: the [Logger] facade ([New], [NewWithEvents],
      [NewWithHandler], the eight per-level methods and [write]), the hook
      wrapper [logHandler] and the normalisation [toRecord];
    - [apis/tooling/logfmt]: the line filter that reformats JSON log lines.

    The logger is written against Go's [log/slog].  The part of [slog] the
    logger relies on (values, attributes, records, the JSON handler) is
    modelled in module [slog] below, from its documented behaviour.  Calls
    that leave the logger (the runtime, the clock, the trace function, the
    hooks, the sink) are recorded in a trace of [Effect]s, in program
    order; a hook is a callback that returns.

    The filter is a function of the lines its scanner delivers.  It is
    parameterised by the decoder ([json.Unmarshal]), by the order in which
    Go iterates over a map and by [fmt]'s rendering of numbers and
    composite values; a decoder for JSON texts is given to run it. *)

From Stdlib Require Import ZArith Ascii String List Bool Permutation Lia.
From stdpp Require Import base strings gmap list pretty.

Local Open Scope Z_scope.
Set Warnings "-register-all".

(** ** Go's [context.Context] *)

Inductive Context :=
| Background
| WithValue (parent : Context) (key val : string).

(** ** The parts of [log/slog] used by the logger *)

Module slog.

(** [type Level int]; the four named levels. *)
Definition Level := Z.
Definition LevelDebug : Level := -4.
Definition LevelInfo : Level := 0.
Definition LevelWarn : Level := 4.
Definition LevelError : Level := 8.

(** [time.Time] as an instant; [0] is the zero time ([IsZero]). *)
Definition Time := Z.

(** [slog.Source]: what a program counter resolves to. *)
Record Source := { Function : string; File : string; Line : Z }.

(** [slog.Value], by kind.  The [Any...] constructors are the values of
    kind [KindAny] that occur in this program. *)
Inductive Value :=
| StringValue (s : string)
| Int64Value (n : Z)
| BoolValue (b : bool)
| TimeValue (t : Time)
| GroupValue (attrs : list (string * Value))
| AnyNil
| AnyLevel (l : Level)
| AnySource (src : Source)
| AnyError (msg : string)
| AnyAttr (key : string) (v : Value).

(** [slog.Attr]: a key and a value. *)
Definition Attr : Type := string * Value.
Definition Key (a : Attr) : string := a.1.
Definition Val (a : Attr) : Value := a.2.

(** A Go value of type [any] handed to the logger as a variadic argument:
    a string, an [slog.Attr], or any other value, given by the
    [slog.Value] that [slog.AnyValue] builds for it. *)
Inductive any :=
| AString (s : string)
| AAttr (a : Attr)
| AValue (v : Value).

(** [slog.AnyValue]. *)
Definition AnyValue (x : any) : Value :=
  match x with
  | AString s => StringValue s
  | AAttr a => AnyAttr (Key a) (Val a)
  | AValue v => v
  end.

(** [Value.Any]. *)
Definition Value_Any (v : Value) : any :=
  match v with
  | StringValue s => AString s
  | AnyAttr k v' => AAttr (k, v')
  | _ => AValue v
  end.

Definition isEmptyGroup (v : Value) : bool :=
  match v with
  | GroupValue [] => true
  | _ => false
  end.

(** [Attr.isEmpty]: the zero [Attr]. *)
Definition isEmpty (a : Attr) : bool :=
  String.eqb (Key a) "" && match Val a with AnyNil => true | _ => false end.

Definition badKey : string := "!BADKEY".
Definition TimeKey : string := "time".
Definition LevelKey : string := "level".
Definition MessageKey : string := "msg".
Definition SourceKey : string := "source".

(** [slog.Record].  [PC] is the program counter captured by the caller. *)
Record record := {
  rTime : Time;
  rMessage : string;
  rLevel : Level;
  rPC : Z;
  rAttrs : list Attr
}.

Definition NewRecord (t : Time) (level : Level) (msg : string) (pc : Z) : record :=
  {| rTime := t; rMessage := msg; rLevel := level; rPC := pc; rAttrs := [] |}.

(** The loop of [Record.Add]: [argsToAttr] turns the head of [args] into
    an [Attr] (a string takes the next argument as its value; a string in
    last position and any other non-[Attr] value get the key ["!BADKEY"]),
    and attributes that are empty groups are dropped. *)
Fixpoint argsToAttrs (args : list any) : list Attr :=
  match args with
  | [] => []
  | AString x :: [] => [(badKey, StringValue x)]
  | AString x :: v :: rest =>
      let a := (x, AnyValue v) in
      if isEmptyGroup (Val a) then argsToAttrs rest else a :: argsToAttrs rest
  | AAttr a :: rest =>
      if isEmptyGroup (Val a) then argsToAttrs rest else a :: argsToAttrs rest
  | AValue v :: rest =>
      let a := (badKey, v) in
      if isEmptyGroup (Val a) then argsToAttrs rest else a :: argsToAttrs rest
  end.

Definition Add (r : record) (args : list any) : record :=
  {| rTime := rTime r; rMessage := rMessage r; rLevel := rLevel r;
     rPC := rPC r; rAttrs := rAttrs r ++ argsToAttrs args |}.

(** [Source.group]: the fields of a source location that are set. *)
Definition Source_group (s : Source) : list Attr :=
  (if String.eqb (Function s) "" then [] else [("function", StringValue (Function s))]) ++
  (if String.eqb (File s) "" then [] else [("file", StringValue (File s))]) ++
  (if Line s =? 0 then [] else [("line", Int64Value (Line s))]).

(** [slog.HandlerOptions]. *)
Record HandlerOptions := {
  AddSource : bool;
  MinLevel : Level;
  ReplaceAttr : option (list string -> Attr -> Attr)
}.

(** What [WithAttrs] and [WithGroup] have attached to a handler so far. *)
Inductive Scope :=
| ScopeAttrs (attrs : list Attr)
| ScopeGroup (name : string).

(** *** The output of the JSON handler

    One call of [JSONHandler.Handle] writes one JSON object.  It is
    modelled as the list of its members in the order written, a nested
    object being a [GroupValue]. *)
Section Append.
Variable rep : option (list string -> Attr -> Attr).

Definition replace (gs : list string) (a : Attr) : Attr :=
  match rep with
  | Some fn => fn gs a
  | None => a
  end.

(** A group attribute: dropped when nothing is written inside it,
    inlined when its key is empty. *)
Definition group (key : string) (inner : list Attr) : list Attr :=
  match inner with
  | [] => []
  | _ => if String.eqb key "" then inner else [(key, GroupValue inner)]
  end.

Definition nested (gs : list string) (key : string) : list string :=
  if String.eqb key "" then gs else gs ++ [key].

(** A member of a [Source] group: replaced, and written unless empty. *)
Definition appendField (gs : list string) (a : Attr) : list Attr :=
  let a1 := replace gs a in
  if isEmpty a1 then [] else [a1].

(** [handleState.appendAttr] on an attribute that is not a group: the
    replacement function is applied, an empty result is elided, and a
    [*Source] that is still there is written as its group.  A replacement
    function that turns such an attribute into a group is not covered:
    its result is written as it is. *)
Definition appendLeaf (gs : list string) (a : Attr) : list Attr :=
  let a1 := replace gs a in
  if isEmpty a1 then []
  else match Val a1 with
       | AnySource src =>
           group (Key a1)
             (flat_map (appendField (nested gs (Key a1))) (Source_group src))
       | _ => [a1]
       end.

(** [handleState.appendAttr]: groups are walked, leaves are replaced. *)
Fixpoint appendKV (gs : list string) (key : string) (v : Value) {struct v}
  : list Attr :=
  match v with
  | GroupValue attrs =>
      group key
        ((fix walk (l : list (string * Value)) : list Attr :=
            match l with
            | [] => []
            | (k', v') :: l' => appendKV (nested gs key) k' v' ++ walk l'
            end) attrs)
  | _ => appendLeaf gs (key, v)
  end.

Definition appendAttr (gs : list string) (a : Attr) : list Attr :=
  appendKV gs (Key a) (Val a).

Definition appendAttrs (gs : list string) (l : list Attr) : list Attr :=
  flat_map (appendAttr gs) l.

(** A group opened with [WithGroup]: an object under the name of the
    group, the empty name included; dropped when nothing is written
    inside it. *)
Definition openGroup (name : string) (inner : list Attr) : list Attr :=
  match inner with
  | [] => []
  | _ => [(name, GroupValue inner)]
  end.

(** [appendNonBuiltIns]: the attributes and groups attached with
    [WithAttrs] and [WithGroup], then those of the record. *)
Fixpoint appendNonBuiltIns (gs : list string) (scopes : list Scope)
    (rattrs : list Attr) : list Attr :=
  match scopes with
  | [] => appendAttrs gs rattrs
  | ScopeAttrs l :: rest =>
      appendAttrs gs l ++ appendNonBuiltIns gs rest rattrs
  | ScopeGroup g :: rest =>
      openGroup g (appendNonBuiltIns (gs ++ [g]) rest rattrs)
  end.
End Append.

(** [commonHandler.handle]: the built-in members, outside any group,
    then the rest.  [frame] resolves the record's program counter
    ([Record.source]). *)
Definition handle (frame : Z -> Source) (opts : HandlerOptions)
    (scopes : list Scope) (r : record) : list Attr :=
  let rep := ReplaceAttr opts in
  (if rTime r =? 0 then [] else appendAttr rep [] (TimeKey, TimeValue (rTime r))) ++
  appendAttr rep [] (LevelKey, AnyLevel (rLevel r)) ++
  (if AddSource opts
   then appendAttr rep [] (SourceKey, AnySource (frame (rPC r)))
   else []) ++
  appendAttr rep [] (MessageKey, StringValue (rMessage r)) ++
  appendNonBuiltIns rep [] scopes (rAttrs r).

End slog.

(** ** Package [logger]: the data model ([model.go]) *)

(** [type Level slog.Level] and its four constants. *)
Definition Level := slog.Level.
Definition LevelDebug : Level := slog.LevelDebug.
Definition LevelInfo : Level := slog.LevelInfo.
Definition LevelWarn : Level := slog.LevelWarn.
Definition LevelError : Level := slog.LevelError.

(** The struct [Record] of [model.go]: a log entry that can be stored. *)
Module Record.
Record t := mk {
  Time : slog.Time;
  Message : string;
  Level : Level;
  Attributes : gmap string slog.any
}.
End Record.

(** [toRecord]: every attribute of the [slog.Record] is stored under its
    key, in order, a later one replacing an earlier one with the same key. *)
Definition toRecord (r : slog.record) : Record.t :=
  let attrs :=
    foldl (fun (m : gmap string slog.any) (attr : slog.Attr) =>
             <[slog.Key attr := slog.Value_Any (slog.Val attr)]> m)
          ∅ (slog.rAttrs r) in
  {| Record.Time := slog.rTime r;
     Record.Message := slog.rMessage r;
     Record.Level := slog.rLevel r;
     Record.Attributes := attrs |}.

(** [EventFn]: a callback, known by its identity; calling it is an
    [Effect].  [None] is Go's [nil]. *)
Definition EventFn := string.

(** The struct [Events]: one optional callback per level. *)
Module Events.
Record t := mk { Debug : option EventFn; Info : option EventFn;
  Warn : option EventFn; Error : option EventFn }.
End Events.

(** [TraceIDFn]: reads a trace id from the context. *)
Definition TraceIDFn := Context -> string.

(** ** Handlers ([slog.Handler] and its implementations) *)

(** [io.Writer] values: [io.Discard], or a stream known by its name. *)
Inductive Writer :=
| Discard
| Stream (name : string).

#[global] Instance Writer_eq_dec : EqDecision Writer.
Proof. solve_decision. Defined.

(** The implementations of the interface [slog.Handler]:
    - [JSONHandler]: [*slog.JSONHandler], with its writer, its options and
      what has been attached to it;
    - [logHandler]: the hook wrapper of this package, a struct holding the
      wrapped handler and, by value, the struct [Events];
    - [ExternHandler]: any other implementation, known by a name, by the
      levels it accepts and by what has been attached to it. *)
Inductive Handler :=
| JSONHandler (w : Writer) (opts : slog.HandlerOptions) (scopes : list slog.Scope)
| logHandler (handler : Handler) (events : Events.t)
| ExternHandler (name : string) (enabled : slog.Level -> bool) (scopes : list slog.Scope).

(** ** Effects *)

(** What a call of the logger does outside itself, in program order. *)
Inductive Effect :=
| CallCallers (skip : Z)
| CallNow
| CallTraceID (ctx : Context)
| CallHook (fn : EventFn) (ctx : Context) (r : Record.t)
| WriteJSON (w : Writer) (members : list slog.Attr)
| CallExtern (name : string) (scopes : list slog.Scope) (ctx : Context) (r : slog.record).

(** The Go runtime as the logger sees it: the program counter that
    [runtime.Callers(skip, pcs[:])] stores in [pcs[0]] for the current call
    stack ([0] when the stack is shorter than [skip]), the instant
    [time.Now()] returns, and the source location of a program counter. *)
Record Runtime := {
  Callers : Z -> Z;
  Now : slog.Time;
  Frame : Z -> slog.Source
}.

(** ** The hook wrapper *)

(** [newLogHandler]. *)
Definition newLogHandler (handler : Handler) (events : Events.t) : Handler :=
  logHandler handler events.

(** [Enabled]: the JSON handler compares with its minimum level; the
    wrapper asks the wrapped handler. *)
Fixpoint Enabled (h : Handler) (ctx : Context) (level : slog.Level) : bool :=
  match h with
  | JSONHandler _ opts _ => slog.MinLevel opts <=? level
  | logHandler handler _ => Enabled handler ctx level
  | ExternHandler _ enabled _ => enabled level
  end.

Definition allEmptyGroups (attrs : list slog.Attr) : bool :=
  forallb (fun a => slog.isEmptyGroup (slog.Val a)) attrs.

(** [WithAttrs].  The wrapper builds a new [logHandler] around the re-scoped
    handler, with [events: h.events].  The JSON handler returns itself when
    there is nothing to attach. *)
Fixpoint WithAttrs (h : Handler) (attrs : list slog.Attr) : Handler :=
  match h with
  | JSONHandler w opts scopes =>
      if allEmptyGroups attrs then h
      else JSONHandler w opts (scopes ++ [slog.ScopeAttrs attrs])
  | logHandler handler events => logHandler (WithAttrs handler attrs) events
  | ExternHandler name enabled scopes =>
      ExternHandler name enabled (scopes ++ [slog.ScopeAttrs attrs])
  end.

(** [WithGroup].  The wrapper builds a new [logHandler] around the
    re-scoped handler, with [events: h.events].  The JSON handler opens
    the group whatever the name, the empty name included. *)
Fixpoint WithGroup (h : Handler) (name : string) : Handler :=
  match h with
  | JSONHandler w opts scopes => JSONHandler w opts (scopes ++ [slog.ScopeGroup name])
  | logHandler handler events => logHandler (WithGroup handler name) events
  | ExternHandler n enabled scopes =>
      ExternHandler n enabled (scopes ++ [slog.ScopeGroup name])
  end.

(** The call [h.events.X(ctx, toRecord(r))] behind its [nil] test. *)
Definition callHook (fn : option EventFn) (ctx : Context) (r : slog.record)
  : list Effect :=
  match fn with
  | Some hook => [CallHook hook ctx (toRecord r)]
  | None => []
  end.

(** [Handle].  For the wrapper: the [switch] on the level of the record, in
    the order of the source, then the wrapped handler.  The JSON handler
    writes one object. *)
Fixpoint Handle (rt : Runtime) (h : Handler) (ctx : Context) (r : slog.record)
  : list Effect :=
  match h with
  | JSONHandler w opts scopes => [WriteJSON w (slog.handle (Frame rt) opts scopes r)]
  | logHandler handler events =>
      (if slog.rLevel r =? slog.LevelDebug then callHook (Events.Debug events) ctx r
       else if slog.rLevel r =? slog.LevelError then callHook (Events.Error events) ctx r
       else if slog.rLevel r =? slog.LevelWarn then callHook (Events.Warn events) ctx r
       else if slog.rLevel r =? slog.LevelInfo then callHook (Events.Info events) ctx r
       else [])
      ++ Handle rt handler ctx r
  | ExternHandler name _ scopes => [CallExtern name scopes ctx r]
  end.

(** ** The facade ([Logger]) *)

(** The struct [Logger]. *)
Record Logger := {
  discard : bool;
  handler : Handler;
  traceIDFn : option TraceIDFn
}.

(** [filepath.Base] on slash-separated paths: trailing slashes are
    stripped and the last element is kept; ["."] for the empty path and
    ["/"] for a path of slashes only. *)
Definition isSlash (c : ascii) : bool := Ascii.eqb c "/"%char.

Fixpoint dropSlashes (l : list ascii) : list ascii :=
  match l with
  | c :: l' => if isSlash c then dropSlashes l' else l
  | [] => []
  end.

Fixpoint lastElement (l : list ascii) : list ascii :=
  match l with
  | c :: l' => if isSlash c then [] else c :: lastElement l'
  | [] => []
  end.

Definition Base (path : string) : string :=
  if String.eqb path "" then "."
  else
    let stripped := dropSlashes (rev (list_ascii_of_string path)) in
    match lastElement stripped with
    | [] => "/"
    | elem => string_of_list_ascii (rev elem)
    end.

(** The function [f] of [new], given to the JSON handler as [ReplaceAttr]:
    the attribute with key ["source"] holding a [*slog.Source] becomes the
    attribute ["file"] with the text [fmt.Sprintf("%s:%d", base, line)]. *)
Definition f (groups : list string) (a : slog.Attr) : slog.Attr :=
  if String.eqb (slog.Key a) slog.SourceKey then
    match slog.Val a with
    | slog.AnySource source =>
        let v := Base (slog.File source) +:+ ":" +:+ pretty (slog.Line source) in
        ("file", slog.StringValue v)
    | _ => a
    end
  else a.

Definition isNil {A} (x : option A) : bool :=
  match x with
  | None => true
  | Some _ => false
  end.

(** [new]: a JSON handler with the source enabled, the minimum level and
    [f]; wrapped with the hooks when at least one is set; the service name
    attached with [WithAttrs]; [discard] set when the writer is
    [io.Discard]. *)
Definition new (w : Writer) (minLevel : Level) (serviceName : string)
    (traceIDFn : option TraceIDFn) (events : Events.t) : Logger :=
  let handler :=
    JSONHandler w
      {| slog.AddSource := true; slog.MinLevel := minLevel;
         slog.ReplaceAttr := Some f |} [] in
  let handler :=
    if negb (isNil (Events.Debug events)) || negb (isNil (Events.Info events))
       || negb (isNil (Events.Warn events)) || negb (isNil (Events.Error events))
    then newLogHandler handler events
    else handler in
  let attrs := [("service", slog.StringValue serviceName)] in
  let handler := WithAttrs handler attrs in
  {| discard := bool_decide (w = Discard);
     handler := handler;
     traceIDFn := traceIDFn |}.

Definition New (w : Writer) (minLevel : Level) (serviceName : string)
    (traceIDFn : option TraceIDFn) : Logger :=
  new w minLevel serviceName traceIDFn (Events.mk None None None None).

Definition NewWithEvents (w : Writer) (minLevel : Level) (serviceName : string)
    (traceIDFn : option TraceIDFn) (events : Events.t) : Logger :=
  new w minLevel serviceName traceIDFn events.

Definition NewWithHandler (h : Handler) : Logger :=
  {| discard := false; handler := h; traceIDFn := None |}.

(** [write]: nothing when the level is not enabled; otherwise the caller's
    program counter is captured, the record is created at the current
    time, the trace id is appended to the arguments when a trace function
    is set, the arguments are added to the record, and the record is
    handed to the handler. *)
Definition write (rt : Runtime) (log : Logger) (ctx : Context) (level : Level)
    (caller : Z) (msg : string) (args : list slog.any) : list Effect :=
  let slogLevel : slog.Level := level in
  if negb (Enabled (handler log) ctx slogLevel) then []
  else
    let pcs0 := Callers rt caller in
    let r := slog.NewRecord (Now rt) slogLevel msg pcs0 in
    let '(args, traced) :=
      match traceIDFn log with
      | Some fn =>
          (args ++ [slog.AString "trace_id"; slog.AString (fn ctx)], [CallTraceID ctx])
      | None => (args, [])
      end in
    let r := slog.Add r args in
    [CallCallers caller; CallNow] ++ traced ++ Handle rt (handler log) ctx r.

(** The eight per-level methods. *)
Definition Debug (rt : Runtime) (log : Logger) (ctx : Context) (msg : string)
    (args : list slog.any) : list Effect :=
  if discard log then [] else write rt log ctx LevelDebug 3 msg args.

Definition Debugc (rt : Runtime) (log : Logger) (ctx : Context) (caller : Z)
    (msg : string) (args : list slog.any) : list Effect :=
  if discard log then [] else write rt log ctx LevelDebug caller msg args.

Definition Info (rt : Runtime) (log : Logger) (ctx : Context) (msg : string)
    (args : list slog.any) : list Effect :=
  if discard log then [] else write rt log ctx LevelInfo 3 msg args.

Definition Infoc (rt : Runtime) (log : Logger) (ctx : Context) (caller : Z)
    (msg : string) (args : list slog.any) : list Effect :=
  if discard log then [] else write rt log ctx LevelInfo caller msg args.

Definition Warn (rt : Runtime) (log : Logger) (ctx : Context) (msg : string)
    (args : list slog.any) : list Effect :=
  if discard log then [] else write rt log ctx LevelWarn 3 msg args.

Definition Warnc (rt : Runtime) (log : Logger) (ctx : Context) (caller : Z)
    (msg : string) (args : list slog.any) : list Effect :=
  if discard log then [] else write rt log ctx LevelWarn caller msg args.

Definition Error (rt : Runtime) (log : Logger) (ctx : Context) (msg : string)
    (args : list slog.any) : list Effect :=
  if discard log then [] else write rt log ctx LevelError 3 msg args.

Definition Errorc (rt : Runtime) (log : Logger) (ctx : Context) (caller : Z)
    (msg : string) (args : list slog.any) : list Effect :=
  if discard log then [] else write rt log ctx LevelError caller msg args.

(** A name for each of the eight methods, to state a property of all of
    them at once: [invoke] is the method call, [levelOf] the level the
    method passes to [write] and [depthOf] the caller depth it passes. *)
Inductive Method :=
| MDebug
| MDebugc (caller : Z)
| MInfo
| MInfoc (caller : Z)
| MWarn
| MWarnc (caller : Z)
| MError
| MErrorc (caller : Z).

Definition invoke (rt : Runtime) (log : Logger) (m : Method) (ctx : Context)
    (msg : string) (args : list slog.any) : list Effect :=
  match m with
  | MDebug => Debug rt log ctx msg args
  | MDebugc caller => Debugc rt log ctx caller msg args
  | MInfo => Info rt log ctx msg args
  | MInfoc caller => Infoc rt log ctx caller msg args
  | MWarn => Warn rt log ctx msg args
  | MWarnc caller => Warnc rt log ctx caller msg args
  | MError => Error rt log ctx msg args
  | MErrorc caller => Errorc rt log ctx caller msg args
  end.

Definition levelOf (m : Method) : Level :=
  match m with
  | MDebug | MDebugc _ => LevelDebug
  | MInfo | MInfoc _ => LevelInfo
  | MWarn | MWarnc _ => LevelWarn
  | MError | MErrorc _ => LevelError
  end.

Definition depthOf (m : Method) : Z :=
  match m with
  | MDebug | MInfo | MWarn | MError => 3
  | MDebugc c | MInfoc c | MWarnc c | MErrorc c => c
  end.

(** Reading a trace. *)
Definition isHook (e : Effect) : bool :=
  match e with CallHook _ _ _ => true | _ => false end.

Definition isSink (e : Effect) : bool :=
  match e with WriteJSON _ _ | CallExtern _ _ _ _ => true | _ => false end.

Definition hookCalls (tr : list Effect) : list Effect := filter isHook tr.
Definition sinkCalls (tr : list Effect) : list Effect := filter isSink tr.

(** ** The log filter ([apis/tooling/logfmt]) *)

Module logfmt.

(** What [json.Unmarshal] stores in a [map[string]any]: [nil], [bool],
    [float64] (kept as the number's text), [string], [[]any] and
    [map[string]any] (its members in the order decoded). *)
Inductive jvalue :=
| JNil
| JBool (b : bool)
| JFloat (lit : string)
| JString (s : string)
| JSlice (elems : list jvalue)
| JMap (members : list (string * jvalue)).

(** Building a Go map from decoded members: [m[k] = v] for each, in order. *)
Definition toMap (members : list (string * jvalue)) : gmap string jvalue :=
  foldl (fun (m : gmap string jvalue) kv => <[kv.1 := kv.2]> m) ∅ members.


Definition lowerByte (c : ascii) : ascii :=
  let n := nat_of_ascii c in
  if (65 <=? n)%nat && (n <=? 90)%nat then ascii_of_nat (n + 32) else c.

Fixpoint ToLower (s : string) : string :=
  match s with
  | EmptyString => EmptyString
  | String c s' => String (lowerByte c) (ToLower s')
  end.

(** The result of one iteration of the loop of [main]: the lines it
    prints, or a run-time panic. *)
Inductive Step :=
| Continue (printed : list string)
| Panic.

(** The result of [main]: the lines printed on standard output (each one
    by [fmt.Println]), and whether the program returned or panicked. *)
Inductive Run :=
| Exit (stdout : list string)
| Crash (stdout : list string).

Section Main.

(** [json.Unmarshal([]byte(s), &m)] on a fresh map: [None] is an error. *)
Variable Unmarshal : string -> option (gmap string jvalue).

(** The order in which [for k, v := range m] visits the map.  Go leaves it
    unspecified: it is some enumeration of the entries. *)
Variable rangeOrder : gmap string jvalue -> list (string * jvalue).
Hypothesis rangeOrder_perm : forall m, Permutation (rangeOrder m) (map_to_list m).

(** [fmt]'s rendering of numbers, slices and maps under the verb [%v]
    ([true]) or [%s] ([false]). *)
Variable fmtOther : bool -> jvalue -> string.

(** [fmt.Sprintf("%v", x)] for the value of a map read [m[k]]; a missing
    key reads as the [nil] interface. *)
Definition Sprint_v (x : option jvalue) : string :=
  match x with
  | None | Some JNil => "<nil>"
  | Some (JString s) => s
  | Some (JBool b) => if b then "true" else "false"
  | Some v => fmtOther true v
  end.

(** [fmt.Sprintf("%s", x)]. *)
Definition Sprint_s (x : option jvalue) : string :=
  match x with
  | None | Some JNil => "%!s(<nil>)"
  | Some (JString s) => s
  | Some (JBool b) => if b then "%!s(bool=true)" else "%!s(bool=false)"
  | Some v => fmtOther false v
  end.

Definition isMainField (k : string) : bool :=
  String.eqb k "service" || String.eqb k "time" || String.eqb k "file"
  || String.eqb k "level" || String.eqb k "trace_id" || String.eqb k "msg".

(** The second loop: the other fields, each as [k[v]: ]. *)
Fixpoint extras (kvs : list (string * jvalue)) : string :=
  match kvs with
  | [] => ""
  | (k, v) :: rest =>
      if isMainField k then extras rest
      else (k +:+ "[" +:+ Sprint_v (Some v) +:+ "]: ") +:+ extras rest
  end.

(** The line built in the [strings.Builder] for a decoded map, with the
    last two bytes cut off ([out[:len(out)-2]]). *)
Definition format (m : gmap string jvalue) : string :=
  let traceID :=
    match m !! "trace_id" with
    | Some v => Sprint_v (Some v)
    | None => "00000000-0000-0000-0000-000000000000"
    end in
  let out :=
    (Sprint_s (m !! "service") +:+ ": " +:+ Sprint_s (m !! "time") +:+ ": "
     +:+ Sprint_s (m !! "file") +:+ ": " +:+ Sprint_s (m !! "level") +:+ ": "
     +:+ traceID +:+ ": " +:+ Sprint_s (m !! "msg") +:+ ": ")
    +:+ extras (rangeOrder m) in
  String.substring 0 (String.length out - 2) out.

(** The body of the loop for one scanned line [s]; [service] is the
    lower-cased flag. *)
Definition handleLine (service : string) (s : string) : Step :=
  match Unmarshal s with
  | None =>
      if String.eqb service "" then Continue [s] else Continue []
  | Some m =>
      if negb (String.eqb service "") then
        (* [m["service"].(string)]: panics unless the value is a string *)
        match m !! "service" with
        | Some (JString sv) =>
            if negb (String.eqb (ToLower sv) service) then Continue []
            else Continue [format m]
        | _ => Panic
        end
      else Continue [format m]
  end.

(** The loop over the lines the scanner delivers. *)
Fixpoint loop (service : string) (lines : list string) (stdout : list string) : Run :=
  match lines with
  | [] => Exit stdout
  | s :: rest =>
      match handleLine service s with
      | Continue printed => loop service rest (stdout ++ printed)
      | Panic => Crash stdout
      end
  end.

(** [main]: [flagService] is the value of the flag [-service] (empty when
    the flag is not given), [lines] what [scanner.Text()] returns, one per
    iteration. *)
Definition main (flagService : string) (lines : list string) : Run :=
  let service := ToLower flagService in
  loop service lines [].

End Main.

(** *** A decoder

    [decode] reads a JSON text whose strings are made of ASCII characters
    and of the two-character escapes.  It is not [json.Unmarshal]: it
    refuses the escape [\u] and the bytes outside ASCII, which
    [json.Unmarshal] decodes, and it keeps a number as its text without
    checking its range, where [json.Unmarshal] refuses a number that does
    not fit a [float64].  No statement is about [decode]: the statements
    are about any [Unmarshal], and [decode] is the instance on which they
    are tried, on lines of ASCII text without numbers out of range. *)
Definition isWS (c : ascii) : bool :=
  Ascii.eqb c " "%char || Ascii.eqb c "009"%char
  || Ascii.eqb c "010"%char || Ascii.eqb c "013"%char.

Fixpoint skipWS (l : list ascii) : list ascii :=
  match l with
  | c :: l' => if isWS c then skipWS l' else l
  | [] => []
  end.

Definition unescape (c : ascii) : option ascii :=
  if Ascii.eqb c "034"%char then Some "034"%char
  else if Ascii.eqb c "092"%char then Some "092"%char
  else if Ascii.eqb c "/"%char then Some "/"%char
  else if Ascii.eqb c "b"%char then Some "008"%char
  else if Ascii.eqb c "f"%char then Some "012"%char
  else if Ascii.eqb c "n"%char then Some "010"%char
  else if Ascii.eqb c "r"%char then Some "013"%char
  else if Ascii.eqb c "t"%char then Some "009"%char
  else None.

(** The characters of a string after its opening quote. *)
Fixpoint parseString (l : list ascii) (acc : list ascii)
  : option (string * list ascii) :=
  match l with
  | [] => None
  | c :: l' =>
      if Ascii.eqb c "034"%char then Some (string_of_list_ascii (rev acc), l')
      else if Ascii.eqb c "092"%char then
        match l' with
        | e :: l'' =>
            match unescape e with
            | Some ch => parseString l'' (ch :: acc)
            | None => None
            end
        | [] => None
        end
      else if (nat_of_ascii c <? 32)%nat || (127 <? nat_of_ascii c)%nat then None
      else parseString l' (c :: acc)
  end.

Definition isDigit (c : ascii) : bool :=
  (48 <=? nat_of_ascii c)%nat && (nat_of_ascii c <=? 57)%nat.

Fixpoint digits (l : list ascii) : list ascii * list ascii :=
  match l with
  | c :: l' => if isDigit c then let '(d, r) := digits l' in (c :: d, r) else ([], l)
  | [] => ([], [])
  end.

(** A number: an optional minus sign, an integer part without leading
    zero, an optional fraction and an optional exponent. *)
Definition parseNumber (l : list ascii) : option (string * list ascii) :=
  let '(sign, l1) :=
    match l with
    | c :: l' => if Ascii.eqb c "-"%char then ([c], l') else ([], l)
    | [] => ([], l)
    end in
  let '(int, l2) := digits l1 in
  match int with
  | [] => None
  | d :: ds =>
      if Ascii.eqb d "0"%char && negb (bool_decide (ds = [])) then None
      else
        let frac :=
          match l2 with
          | c :: l' =>
              if Ascii.eqb c "."%char then
                let '(fd, r) := digits l' in
                match fd with [] => None | _ => Some (c :: fd, r) end
              else Some ([], l2)
          | [] => Some ([], l2)
          end in
        match frac with
        | None => None
        | Some (fr, l3) =>
            let expo :=
              match l3 with
              | c :: l' =>
                  if Ascii.eqb c "e"%char || Ascii.eqb c "E"%char then
                    let '(sg, l'') :=
                      match l' with
                      | s :: t =>
                          if Ascii.eqb s "+"%char || Ascii.eqb s "-"%char
                          then ([s], t) else ([], l')
                      | [] => ([], l')
                      end in
                    let '(ed, r) := digits l'' in
                    match ed with [] => None | _ => Some (c :: sg ++ ed, r) end
                  else Some ([], l3)
              | [] => Some ([], l3)
              end in
            match expo with
            | None => None
            | Some (ex, l4) =>
                Some (string_of_list_ascii (sign ++ int ++ fr ++ ex), l4)
            end
        end
  end.

Fixpoint parseValue (fuel : nat) (l : list ascii) {struct fuel}
  : option (jvalue * list ascii) :=
  match fuel with
  | O => None
  | S n =>
      match skipWS l with
      | "{"%char :: l1 =>
          match skipWS l1 with
          | "}"%char :: l2 => Some (JMap [], l2)
          | l2 => parseMembers n l2 []
          end
      | "["%char :: l1 =>
          match skipWS l1 with
          | "]"%char :: l2 => Some (JSlice [], l2)
          | l2 => parseElems n l2 []
          end
      | "034"%char :: l1 =>
          match parseString l1 [] with
          | Some (s, l2) => Some (JString s, l2)
          | None => None
          end
      | "t"%char :: "r"%char :: "u"%char :: "e"%char :: l1 => Some (JBool true, l1)
      | "f"%char :: "a"%char :: "l"%char :: "s"%char :: "e"%char :: l1 =>
          Some (JBool false, l1)
      | "n"%char :: "u"%char :: "l"%char :: "l"%char :: l1 => Some (JNil, l1)
      | l1 =>
          match parseNumber l1 with
          | Some (lit, l2) => Some (JFloat lit, l2)
          | None => None
          end
      end
  end
with parseElems (fuel : nat) (l : list ascii) (acc : list jvalue) {struct fuel}
  : option (jvalue * list ascii) :=
  match fuel with
  | O => None
  | S n =>
      match parseValue n l with
      | Some (v, l1) =>
          match skipWS l1 with
          | ","%char :: l2 => parseElems n l2 (v :: acc)
          | "]"%char :: l2 => Some (JSlice (rev (v :: acc)), l2)
          | _ => None
          end
      | None => None
      end
  end
with parseMembers (fuel : nat) (l : list ascii) (acc : list (string * jvalue))
  {struct fuel} : option (jvalue * list ascii) :=
  match fuel with
  | O => None
  | S n =>
      match skipWS l with
      | "034"%char :: l1 =>
          match parseString l1 [] with
          | Some (k, l2) =>
              match skipWS l2 with
              | ":"%char :: l3 =>
                  match parseValue n l3 with
                  | Some (v, l4) =>
                      match skipWS l4 with
                      | ","%char :: l5 => parseMembers n l5 ((k, v) :: acc)
                      | "}"%char :: l5 => Some (JMap (rev ((k, v) :: acc)), l5)
                      | _ => None
                      end
                  | None => None
                  end
              | _ => None
              end
          | None => None
          end
      | _ => None
      end
  end.

(** Decoding into a [map[string]any]: the text must be one JSON value and
    nothing else; an object fills the map, [null] leaves it without
    entries, any other value is an error. *)
Definition decode (s : string) : option (gmap string jvalue) :=
  let l := list_ascii_of_string s in
  match parseValue (S (length l)) l with
  | Some (v, rest) =>
      match skipWS rest with
      | [] =>
          match v with
          | JMap members => Some (toMap members)
          | JNil => Some ∅
          | _ => None
          end
      | _ => None
      end
  | None => None
  end.

End logfmt.

(** * Vocabulary of the statements *)

(** ** Loggers built by [new] *)

(** The JSON handler of a logger built by [new], once the service name is
    attached. *)
Definition jsonSink (w : Writer) (minLevel : Level) (serviceName : string) : Handler :=
  JSONHandler w
    {| slog.AddSource := true; slog.MinLevel := minLevel; slog.ReplaceAttr := Some f |}
    [slog.ScopeAttrs [("service", slog.StringValue serviceName)]].

Definition hasHooks (events : Events.t) : bool :=
  negb (isNil (Events.Debug events)) || negb (isNil (Events.Info events))
  || negb (isNil (Events.Warn events)) || negb (isNil (Events.Error events)).

(** The arguments [write] adds to the record, and the call of the trace
    function that computes the last of them. *)
Definition tracedArgs (traceFn : option TraceIDFn) (ctx : Context)
    (args : list slog.any) : list slog.any :=
  match traceFn with
  | Some fn => args ++ [slog.AString "trace_id"; slog.AString (fn ctx)]
  | None => args
  end.

Definition traceCall (traceFn : option TraceIDFn) (ctx : Context) : list Effect :=
  match traceFn with
  | Some _ => [CallTraceID ctx]
  | None => []
  end.

(** The record [write] hands to the handler. *)
Definition builtRecord (rt : Runtime) (traceFn : option TraceIDFn) (ctx : Context)
    (level : Level) (caller : Z) (msg : string) (args : list slog.any) : slog.record :=
  slog.Add (slog.NewRecord (Now rt) level msg (Callers rt caller))
           (tracedArgs traceFn ctx args).

(** The hook table read as the specification describes it: a mapping from
    a level to the callback registered for exactly that level, if any. *)
Definition hookFor (events : Events.t) (level : slog.Level) : option EventFn :=
  if decide (level = slog.LevelDebug) then Events.Debug events
  else if decide (level = slog.LevelInfo) then Events.Info events
  else if decide (level = slog.LevelWarn) then Events.Warn events
  else if decide (level = slog.LevelError) then Events.Error events
  else None.

(** A handler that is not the hook wrapper: a sink. *)
Definition isWrapper (h : Handler) : bool :=
  match h with
  | logHandler _ _ => true
  | _ => false
  end.

(** ** Data for the examples *)

(** The runtime of a call from [main.go:39], a trace function, and the
    hook table of the sales service. *)
Definition exampleRuntime : Runtime :=
  {| Callers := fun skip => if skip =? 3 then 4242 else 0;
     Now := 1700;
     Frame := fun pc =>
       if pc =? 4242
       then {| slog.Function := "main.run"; slog.File := "/src/sales/main.go";
               slog.Line := 39 |}
       else {| slog.Function := EmptyString; slog.File := EmptyString;
               slog.Line := 0 |} |}.

Definition exampleTrace : TraceIDFn := fun _ => "T1".

Definition exampleEvents : Events.t := Events.mk None None None (Some "alert").

(** ** The object an enabled call writes *)

(** The member written for the time of the record, if it is set. *)
Definition timeMember (t : slog.Time) : list slog.Attr :=
  if t =? 0 then [] else [(slog.TimeKey, slog.TimeValue t)].

(** The text [fmt.Sprintf("%s:%d", filepath.Base(source.File), source.Line)]. *)
Definition location (src : slog.Source) : string :=
  Base (slog.File src) +:+ ":" +:+ pretty (slog.Line src).

(** The arguments end in a key without a value: the string in last
    position that [argsToAttr] finds alone. *)
Fixpoint dangling (args : list slog.any) : bool :=
  match args with
  | [] => false
  | slog.AString _ :: [] => true
  | slog.AString _ :: _ :: rest => dangling rest
  | _ :: rest => dangling rest
  end.

(** The members of the object written for an enabled call. *)
Definition builtins (rt : Runtime) (serviceName : string) (m : Method) (msg : string)
  : list slog.Attr :=
  timeMember (Now rt)
  ++ [("level", slog.AnyLevel (levelOf m));
      ("file", slog.StringValue (location (Frame rt (Callers rt (depthOf m)))));
      ("msg", slog.StringValue msg);
      ("service", slog.StringValue serviceName)].

(** The map the loop of [toRecord] builds from a list of attributes. *)
Definition attrMap (attrs : list slog.Attr) : gmap string slog.any :=
  foldl (fun (m : gmap string slog.any) (attr : slog.Attr) =>
           <[slog.Key attr := slog.Value_Any (slog.Val attr)]> m) ∅ attrs.

(** ** The log filter *)

(** The second loop only writes the fields that are not main fields. *)
Definition isExtra (kv : string * logfmt.jvalue) : Prop :=
  logfmt.isMainField kv.1 = false.

#[local] Instance isExtra_dec kv : Decision (isExtra kv).
Proof. unfold isExtra. apply _. Defined.

(** The two input lines of the example, and the maps they decode to.  The
    first line is
    [{"service":"SALES","time":"t1","file":"f.go:10","level":"INFO","trace_id":"abc","msg":"hello","extra":"x"}];
    the second is the same without the member [trace_id]. *)
Definition quote : string := String "034"%char EmptyString.

Definition member (k v : string) : string :=
  quote +:+ k +:+ quote +:+ ":" +:+ quote +:+ v +:+ quote.

Definition salesLine : string :=
  "{" +:+ member "service" "SALES" +:+ "," +:+ member "time" "t1" +:+ ","
  +:+ member "file" "f.go:10" +:+ "," +:+ member "level" "INFO" +:+ ","
  +:+ member "trace_id" "abc" +:+ "," +:+ member "msg" "hello" +:+ ","
  +:+ member "extra" "x" +:+ "}".

Definition salesLineNoTrace : string :=
  "{" +:+ member "service" "SALES" +:+ "," +:+ member "time" "t1" +:+ ","
  +:+ member "file" "f.go:10" +:+ "," +:+ member "level" "INFO" +:+ ","
  +:+ member "msg" "hello" +:+ "," +:+ member "extra" "x" +:+ "}".

Definition salesMap : gmap string logfmt.jvalue :=
  logfmt.toMap
    [("service", logfmt.JString "SALES"); ("time", logfmt.JString "t1");
     ("file", logfmt.JString "f.go:10"); ("level", logfmt.JString "INFO");
     ("trace_id", logfmt.JString "abc"); ("msg", logfmt.JString "hello");
     ("extra", logfmt.JString "x")].

Definition salesMapNoTrace : gmap string logfmt.jvalue :=
  logfmt.toMap
    [("service", logfmt.JString "SALES"); ("time", logfmt.JString "t1");
     ("file", logfmt.JString "f.go:10"); ("level", logfmt.JString "INFO");
     ("msg", logfmt.JString "hello"); ("extra", logfmt.JString "x")].

(** ** Hook wrappers in memory *)

(** [WithAttrs] and [WithGroup] of the hook wrapper return a pointer to a
    new struct, [&logHandler{handler: ..., events: h.events}].  The memory
    holds the [logHandler] structs allocated so far, each with its two
    fields; a pointer is the index of a struct. *)
Record logHandlerStruct := {
  handlerField : Handler;
  eventsField : Events.t
}.

Abbreviation Memory := (list logHandlerStruct).
Definition pointer := nat.

(** The handler a pointer stands for. *)
Definition deref (mem : Memory) (p : pointer) : option Handler :=
  match mem !! p with
  | Some s => Some (logHandler (handlerField s) (eventsField s))
  | None => None
  end.

Definition allocate (mem : Memory) (s : logHandlerStruct) : pointer * Memory :=
  (length mem, mem ++ [s]).

(** [(h *logHandler) WithAttrs(attrs)]; [None] is the nil dereference. *)
Definition WithAttrs_ptr (mem : Memory) (h : pointer) (attrs : list slog.Attr)
  : option (pointer * Memory) :=
  match mem !! h with
  | Some s =>
      Some (allocate mem {| handlerField := WithAttrs (handlerField s) attrs;
                            eventsField := eventsField s |})
  | None => None
  end.

(** [(h *logHandler) WithGroup(name)]. *)
Definition WithGroup_ptr (mem : Memory) (h : pointer) (name : string)
  : option (pointer * Memory) :=
  match mem !! h with
  | Some s =>
      Some (allocate mem {| handlerField := WithGroup (handlerField s) name;
                            eventsField := eventsField s |})
  | None => None
  end.

(** The hook table read through a pointer: [h.events]. *)
Definition eventsOf (mem : Memory) (h : pointer) : option Events.t :=
  match mem !! h with
  | Some s => Some (eventsField s)
  | None => None
  end.

(** Go's assignment [h.events = events].  The package never assigns the
    field; the assignment is what tells a shared table from a copy. *)
Definition assignEvents (mem : Memory) (h : pointer) (events : Events.t) : Memory :=
  match mem !! h with
  | Some s => <[h := {| handlerField := handlerField s; eventsField := events |}]> mem
  | None => mem
  end.

(** Two pipelines share one table when a table assigned through the first
    is the table read through the second. *)
Definition sharesTable (mem : Memory) (p q : pointer) : Prop :=
  forall events, eventsOf (assignEvents mem p events) q = Some events.

Definition exampleMemory : Memory :=
  [{| handlerField := jsonSink (Stream "stdout") LevelInfo "SALES";
      eventsField := exampleEvents |}].

(** * The rest of the packages *)

(** ** [NewStdLogger] *)

(** The [*log.Logger] that [slog.NewLogLogger(h, level)] returns: a logger
    of the package [log] without prefix and without flags, whose writer
    hands every line to the handler [h] at the level [level]. *)
Record StdLogger := {
  stdHandler : Handler;
  stdLevel : slog.Level
}.

Definition NewLogLogger (h : Handler) (level : slog.Level) : StdLogger :=
  {| stdHandler := h; stdLevel := level |}.

(** [NewStdLogger]. *)
Definition NewStdLogger (logger : Logger) (level : Level) : StdLogger :=
  NewLogLogger (handler logger) level.

Definition newline : string := String "010"%char EmptyString.

Fixpoint endsWithNewline (s : string) : bool :=
  match s with
  | EmptyString => false
  | String c EmptyString => Ascii.eqb c "010"%char
  | String _ rest => endsWithNewline rest
  end.

Fixpoint dropLast (s : string) : string :=
  match s with
  | EmptyString => EmptyString
  | String _ EmptyString => EmptyString
  | String c rest => String c (dropLast rest)
  end.

(** The writer of the standard logger, [handlerWriter.Write(buf)]: nothing
    when the level is not enabled; otherwise the program counter of the
    caller of the printing function is captured, a final newline is
    removed, and the record is handed to the handler with the background
    context. *)
Definition handlerWriter_Write (rt : Runtime) (l : StdLogger) (buf : string)
  : list Effect :=
  let level := stdLevel l in
  if negb (Enabled (stdHandler l) Background level) then []
  else
    let pc := Callers rt 4 in
    let buf := if endsWithNewline buf then dropLast buf else buf in
    let r := slog.NewRecord (Now rt) level buf pc in
    [CallCallers 4; CallNow] ++ Handle rt (stdHandler l) Background r.

(** [Logger.Output] of the package [log], without prefix and flags: the text, with a
    newline added when it does not end with one, is written in one call. *)
Definition StdLogger_Output (rt : Runtime) (l : StdLogger) (s : string)
  : list Effect :=
  let buf := if endsWithNewline s then s else s +:+ newline in
  handlerWriter_Write rt l buf.

(** ** [BuildInfo] *)

(** What [debug.ReadBuildInfo] returns, as far as [BuildInfo] reads it:
    the settings, the Go version and the version of the main module
    ([info.Main.Version]). *)
Module debug.
Record BuildSetting := { Key : string; Value : string }.
Record BuildInfo := {
  GoVersion : string;
  MainVersion : string;
  Settings : list BuildSetting
}.
End debug.

(** [strings.ContainsAny(s, chars)] for characters of the ASCII range: one
    of the bytes of [s] is one of [chars]. *)
Definition ContainsAny (s : string) (chars : list ascii) : bool :=
  existsb (fun c => existsb (Ascii.eqb c) chars) (list_ascii_of_string s).

(** The characters of the two string literals of [quoteKey] and
    [quoteValue]: the equals sign, the space, tab, carriage return, line
    feed, the double quote and the back quote. *)
Definition valueChars : list ascii :=
  [" "%char; "009"%char; "013"%char; "010"%char; "034"%char; "`"%char].

Definition keyChars : list ascii := "="%char :: valueChars.

(** [quoteKey]. *)
Definition quoteKey (key : string) : bool :=
  (String.length key =? 0)%nat || ContainsAny key keyChars.

(** [quoteValue]. *)
Definition quoteValue (value : string) : bool :=
  ContainsAny value valueChars.

(** The loop of [BuildInfo] over the settings: [values] grows by the key
    and the value of each, quoted with [Quote] ([strconv.Quote]) when
    [quoteKey] and [quoteValue] say so. *)
Fixpoint settingValues (Quote : string -> string) (settings : list debug.BuildSetting)
    (values : list slog.any) : list slog.any :=
  match settings with
  | [] => values
  | s :: rest =>
      let key := debug.Key s in
      let key := if quoteKey key then Quote key else key in
      let value := debug.Value s in
      let value := if quoteValue value then Quote value else value in
      settingValues Quote rest (values ++ [slog.AString key; slog.AString value])
  end.

(** [BuildInfo]; [info] is the result of [debug.ReadBuildInfo()], [None]
    when the build information is not available. *)
Definition BuildInfo (rt : Runtime) (Quote : string -> string)
    (info : option debug.BuildInfo) (log : Logger) (ctx : Context) : list Effect :=
  match info with
  | None => Warn rt log ctx "build info not available" []
  | Some info =>
      let values := settingValues Quote (debug.Settings info) [] in
      let values := values ++ [slog.AString "goversion"; slog.AString (debug.GoVersion info)] in
      let values := values ++ [slog.AString "modversion"; slog.AString (debug.MainVersion info)] in
      Info rt log ctx "build info" values
  end.

(** [strconv.Quote] on ASCII text: the text between double quotes, with
    the double quote and the backslash escaped, the control characters
    written as their escapes and any other byte that does not print
    written as [\x] and two hexadecimal digits. *)
Definition hexDigit (n : nat) : ascii :=
  nth n (list_ascii_of_string "0123456789abcdef") "0"%char.

Definition escapeByte (c : ascii) : list ascii :=
  let n := nat_of_ascii c in
  let backslash := "092"%char in
  if Ascii.eqb c "034"%char || Ascii.eqb c backslash then [backslash; c]
  else if (32 <=? n)%nat && (n <=? 126)%nat then [c]
  else if (n =? 7)%nat then [backslash; "a"%char]
  else if (n =? 8)%nat then [backslash; "b"%char]
  else if (n =? 12)%nat then [backslash; "f"%char]
  else if (n =? 10)%nat then [backslash; "n"%char]
  else if (n =? 13)%nat then [backslash; "r"%char]
  else if (n =? 9)%nat then [backslash; "t"%char]
  else if (n =? 11)%nat then [backslash; "v"%char]
  else [backslash; "x"%char; hexDigit (n / 16); hexDigit (n mod 16)].

Definition QuoteASCII (s : string) : string :=
  String "034"%char
    (string_of_list_ascii (flat_map escapeByte (list_ascii_of_string s))
     +:+ String "034"%char EmptyString).

(** ** The sales service ([main]) *)

(** The logger [main] builds: standard output, minimum level [LevelInfo],
    the service name ["SALES"], a trace function that returns the empty
    string and a hook for errors only, the closure [sendAlert]. *)
Definition salesTraceIDFn : TraceIDFn := fun _ => EmptyString.

Definition salesEvents : Events.t := Events.mk None None None (Some "sendAlert").

Definition salesLog : Logger :=
  NewWithEvents (Stream "stdout") LevelInfo "SALES" (Some salesTraceIDFn) salesEvents.

(** The body of the closure registered as [events.Error]: it logs through
    the same logger, at the level of information. *)
Definition sendAlert (rt : Runtime) (ctx : Context) (r : Record.t) : list Effect :=
  Info rt salesLog ctx "********** SEND ALERT **********" [].

(** A trace with the effects of the hooks: each hook call is followed by
    what the body of the hook does. *)
Definition withHookBodies (body : EventFn -> Context -> Record.t -> list Effect)
    (tr : list Effect) : list Effect :=
  flat_map (fun e =>
              match e with
              | CallHook fn ctx r => e :: body fn ctx r
              | _ => [e]
              end) tr.

(** ** The [strings.Builder] of the filter *)

(** [main] declares one [strings.Builder] before its loop and writes every
    line it formats into it.  A builder holds the bytes written to it
    since it was declared or reset. *)
Record Builder := { buf : string }.

Definition Builder_Reset (b : Builder) : Builder := {| buf := EmptyString |}.

Definition Builder_WriteString (b : Builder) (s : string) : Builder :=
  {| buf := buf b +:+ s |}.

Definition Builder_String (b : Builder) : string := buf b.

Section MainWithBuilder.
Variable Unmarshal : string -> option (gmap string logfmt.jvalue).
Variable rangeOrder : gmap string logfmt.jvalue -> list (string * logfmt.jvalue).
Variable fmtOther : bool -> logfmt.jvalue -> string.

(** One iteration of [for k, v := range m]: the main fields are skipped,
    the others are written as [k[v]: ]. *)
Definition writeExtra (b : Builder) (kv : string * logfmt.jvalue) : Builder :=
  if logfmt.isMainField kv.1 then b
  else Builder_WriteString b
         (kv.1 +:+ "[" +:+ logfmt.Sprint_v fmtOther (Some kv.2) +:+ "]: ").

(** The end of the body of the loop, from [traceID := ...] to
    [fmt.Println(out[:len(out)-2])]: the line printed and the builder as
    the iteration leaves it. *)
Definition writeLine (m : gmap string logfmt.jvalue) (b : Builder) : logfmt.Step * Builder :=
  let traceID :=
    match m !! "trace_id" with
    | Some v => logfmt.Sprint_v fmtOther (Some v)
    | None => "00000000-0000-0000-0000-000000000000"
    end in
  let b1 := Builder_Reset b in
  let b2 :=
    Builder_WriteString b1
      (logfmt.Sprint_s fmtOther (m !! "service") +:+ ": "
       +:+ logfmt.Sprint_s fmtOther (m !! "time") +:+ ": "
       +:+ logfmt.Sprint_s fmtOther (m !! "file") +:+ ": "
       +:+ logfmt.Sprint_s fmtOther (m !! "level") +:+ ": "
       +:+ traceID +:+ ": " +:+ logfmt.Sprint_s fmtOther (m !! "msg") +:+ ": ") in
  let b3 := foldl writeExtra b2 (rangeOrder m) in
  let out := Builder_String b3 in
  (logfmt.Continue [String.substring 0 (String.length out - 2) out], b3).

(** The body of the loop of [main] for one scanned line [s], with the
    builder as the iterations before left it. *)
Definition handleLineB (service : string) (s : string) (b : Builder)
  : logfmt.Step * Builder :=
  match Unmarshal s with
  | None =>
      (if String.eqb service "" then logfmt.Continue [s] else logfmt.Continue [], b)
  | Some m =>
      if negb (String.eqb service "") then
        match m !! "service" with
        | Some (logfmt.JString sv) =>
            if negb (String.eqb (logfmt.ToLower sv) service) then (logfmt.Continue [], b)
            else writeLine m b
        | _ => (logfmt.Panic, b)
        end
      else writeLine m b
  end.

(** The loop of [main], the builder going from one iteration to the
    next. *)
Fixpoint loopB (service : string) (lines : list string) (stdout : list string)
    (b : Builder) : logfmt.Run :=
  match lines with
  | [] => logfmt.Exit stdout
  | s :: rest =>
      match handleLineB service s b with
      | (logfmt.Continue printed, b') => loopB service rest (stdout ++ printed) b'
      | (logfmt.Panic, _) => logfmt.Crash stdout
      end
  end.

(** [main] with its builder: [var b strings.Builder] is empty. *)
Definition mainB (flagService : string) (lines : list string) : logfmt.Run :=
  loopB (logfmt.ToLower flagService) lines [] {| buf := EmptyString |}.

End MainWithBuilder.

(** ** Vocabulary of the further statements *)

(** The value of the last attribute with a given key. *)
Fixpoint lastValue (k : string) (attrs : list slog.Attr) : option slog.Value :=
  match attrs with
  | [] => None
  | a :: rest =>
      match lastValue k rest with
      | Some v => Some v
      | None => if String.eqb (slog.Key a) k then Some (slog.Val a) else None
      end
  end.

(** Re-scoping a handler by a sequence of [WithAttrs] and [WithGroup]. *)
Definition rescope (h : Handler) (op : slog.Scope) : Handler :=
  match op with
  | slog.ScopeAttrs attrs => WithAttrs h attrs
  | slog.ScopeGroup name => WithGroup h name
  end.

Definition rescopeAll (h : Handler) (ops : list slog.Scope) : Handler :=
  foldl rescope h ops.

(** The four named levels. *)
Definition isNamedLevel (l : slog.Level) : bool :=
  (l =? slog.LevelDebug) || (l =? slog.LevelInfo)
  || (l =? slog.LevelWarn) || (l =? slog.LevelError).

(** The pairs [BuildInfo] logs for the settings. *)
Definition settingAttr (Quote : string -> string) (s : debug.BuildSetting) : slog.Attr :=
  ((if quoteKey (debug.Key s) then Quote (debug.Key s) else debug.Key s),
   slog.StringValue
     (if quoteValue (debug.Value s) then Quote (debug.Value s) else debug.Value s)).

(** What the filter prints for one line when no service is selected. *)
Definition render (Unmarshal : string -> option (gmap string logfmt.jvalue))
    (rangeOrder : gmap string logfmt.jvalue -> list (string * logfmt.jvalue))
    (fmtOther : bool -> logfmt.jvalue -> string) (s : string) : string :=
  match Unmarshal s with
  | None => s
  | Some m => logfmt.format rangeOrder fmtOther m
  end.

(** A run that follows lines already printed. *)
Definition after (printed : list string) (r : logfmt.Run) : logfmt.Run :=
  match r with
  | logfmt.Exit out => logfmt.Exit (printed ++ out)
  | logfmt.Crash out => logfmt.Crash (printed ++ out)
  end.

(** The string in the builder before its last two bytes are cut off. *)
Definition built (rangeOrder : gmap string logfmt.jvalue -> list (string * logfmt.jvalue))
    (fmtOther : bool -> logfmt.jvalue -> string) (m : gmap string logfmt.jvalue) : string :=
  let traceID :=
    match m !! "trace_id" with
    | Some v => logfmt.Sprint_v fmtOther (Some v)
    | None => "00000000-0000-0000-0000-000000000000"
    end in
  (logfmt.Sprint_s fmtOther (m !! "service") +:+ ": "
   +:+ logfmt.Sprint_s fmtOther (m !! "time") +:+ ": "
   +:+ logfmt.Sprint_s fmtOther (m !! "file") +:+ ": "
   +:+ logfmt.Sprint_s fmtOther (m !! "level") +:+ ": "
   +:+ traceID +:+ ": " +:+ logfmt.Sprint_s fmtOther (m !! "msg") +:+ ": ")
  +:+ logfmt.extras fmtOther (rangeOrder m).

(** The arguments [BuildInfo] appends for one setting. *)
Definition settingArgs (Quote : string -> string) (s : debug.BuildSetting)
  : list slog.any :=
  [slog.AString (slog.Key (settingAttr Quote s));
   slog.AString (if quoteValue (debug.Value s) then Quote (debug.Value s)
                 else debug.Value s)].

(** An attribute whose value is a string. *)
Definition isText (a : slog.Attr) : Prop := exists s, slog.Val a = slog.StringValue s.

(** The member [write] adds for the trace id. *)
Definition traceMember (traceFn : option TraceIDFn) (ctx : Context) : list slog.Attr :=
  match traceFn with
  | Some fn => [("trace_id", slog.StringValue (fn ctx))]
  | None => []
  end.

(** A path element: no byte of it is a slash. *)
Definition noSlash (l : list ascii) : Prop := Forall (fun c => isSlash c = false) l.

(** Unfolding [String.append] on a constructor. *)
Ltac unfold_append :=
  repeat change (String ?x ?a +:+ ?b) with (String x (a +:+ b));
  repeat change (EmptyString +:+ ?b) with b.

(** * Properties *)

(** ** The model on concrete inputs *)

Example Base_examples :
  Base "/src/sales/main.go" = "main.go" /\ Base "main.go" = "main.go" /\
  Base "a/b/" = "b" /\ Base "///" = "/" /\ Base EmptyString = ".".
Proof. repeat split. Qed.

(** A key in last position is given the key ["!BADKEY"]; a value that is
    not a string and stands where a key is expected as well. *)
Example argsToAttrs_examples :
  slog.argsToAttrs [slog.AString "a"; slog.AValue (slog.Int64Value 1); slog.AString "b"]
  = [("a", slog.Int64Value 1); ("!BADKEY", slog.StringValue "b")] /\
  slog.argsToAttrs [slog.AValue (slog.BoolValue true); slog.AString "k"; slog.AString "v"]
  = [("!BADKEY", slog.BoolValue true); ("k", slog.StringValue "v")] /\
  slog.argsToAttrs [slog.AAttr ("g", slog.GroupValue []); slog.AString "k"; slog.AString "v"]
  = [("k", slog.StringValue "v")].
Proof. repeat split. Qed.

(** The sales service logs its start-up line: no hook (the table has one
    for errors only), one JSON object. *)
Example Info_startup :
  Info exampleRuntime
    (NewWithEvents (Stream "stdout") LevelInfo "SALES" (Some exampleTrace) exampleEvents)
    Background "startup" [slog.AString "GOMAXPROCS"; slog.AValue (slog.Int64Value 8)]
  = [CallCallers 3; CallNow; CallTraceID Background;
     WriteJSON (Stream "stdout")
       [("time", slog.TimeValue 1700); ("level", slog.AnyLevel 0);
        ("file", slog.StringValue "main.go:39"); ("msg", slog.StringValue "startup");
        ("service", slog.StringValue "SALES"); ("GOMAXPROCS", slog.Int64Value 8);
        ("trace_id", slog.StringValue "T1")]].
Proof. vm_compute. reflexivity. Qed.

(** A warning on the same logger calls no hook either: the hook for
    errors is not called for a lower level. *)
Example Warn_calls_no_Error_hook :
  hookCalls
    (Warn exampleRuntime
       (NewWithEvents (Stream "stdout") LevelInfo "SALES" (Some exampleTrace) exampleEvents)
       Background "slow" [])
  = [].
Proof. vm_compute. reflexivity. Qed.

(** A group opened on the JSON handler with the empty name is written as
    an object under the empty key. *)
Example WithGroup_empty_name :
  Handle exampleRuntime
    (WithGroup (jsonSink (Stream "stdout") LevelInfo "SALES") EmptyString) Background
    (slog.Add (slog.NewRecord 1700 slog.LevelInfo "hi" 4242)
       [slog.AString "user"; slog.AString "ann"])
  = [WriteJSON (Stream "stdout")
       [("time", slog.TimeValue 1700); ("level", slog.AnyLevel 0);
        ("file", slog.StringValue "main.go:39"); ("msg", slog.StringValue "hi");
        ("service", slog.StringValue "SALES");
        (EmptyString, slog.GroupValue [("user", slog.StringValue "ann")])]].
Proof. vm_compute. reflexivity. Qed.

(** The decoder on the line of the example, and on texts that are not
    JSON objects. *)
Example decode_examples :
  logfmt.decode salesLine = Some salesMap /\
  logfmt.decode "oops {" = None /\
  logfmt.decode "[1, 2]" = None /\
  logfmt.decode " { } " = Some ∅.
Proof. repeat split; vm_compute; reflexivity. Qed.

(** With the flag [-service sales], a line of another service is dropped
    and a line of the service is printed, whatever the case of the
    letters. *)
Example filter_by_service :
  logfmt.main logfmt.decode map_to_list (fun _ _ => EmptyString) "sales"
    ["{" +:+ member "service" "BILLING" +:+ "," +:+ member "msg" "paid" +:+ "}";
     "{" +:+ member "service" "Sales" +:+ "," +:+ member "msg" "sold" +:+ "}"]
  = logfmt.Exit
      ["Sales: %!s(<nil>): %!s(<nil>): %!s(<nil>): 00000000-0000-0000-0000-000000000000: sold"].
Proof. vm_compute. reflexivity. Qed.

(** ** Handlers built by [new] *)

Lemma new_handler w minLevel serviceName traceFn events :
  handler (new w minLevel serviceName traceFn events) =
  if hasHooks events then logHandler (jsonSink w minLevel serviceName) events
  else jsonSink w minLevel serviceName.
Proof.
  unfold new, hasHooks, newLogHandler, jsonSink. cbn [handler].
  destruct (negb (isNil (Events.Debug events)) || negb (isNil (Events.Info events))
            || negb (isNil (Events.Warn events)) || negb (isNil (Events.Error events)));
    reflexivity.
Qed.

Lemma new_discard w minLevel serviceName traceFn events :
  discard (new w minLevel serviceName traceFn events) = bool_decide (w = Discard).
Proof. reflexivity. Qed.

Lemma new_traceIDFn w minLevel serviceName traceFn events :
  traceIDFn (new w minLevel serviceName traceFn events) = traceFn.
Proof. reflexivity. Qed.

Lemma Enabled_new w minLevel serviceName traceFn events ctx level :
  Enabled (handler (new w minLevel serviceName traceFn events)) ctx level
  = (minLevel <=? level).
Proof. rewrite new_handler. destruct (hasHooks events); reflexivity. Qed.

(** Every method is the discard test followed by [write] at the level and
    depth of the method. *)
Lemma invoke_unfold rt log m ctx msg args :
  invoke rt log m ctx msg args =
  if discard log then [] else write rt log ctx (levelOf m) (depthOf m) msg args.
Proof. destruct m; reflexivity. Qed.

Lemma write_enabled rt log ctx level caller msg args :
  Enabled (handler log) ctx level = true ->
  write rt log ctx level caller msg args =
  [CallCallers caller; CallNow] ++ traceCall (traceIDFn log) ctx
  ++ Handle rt (handler log) ctx
       (builtRecord rt (traceIDFn log) ctx level caller msg args).
Proof.
  intros Hen. unfold write, builtRecord, tracedArgs, traceCall.
  rewrite Hen. cbn [negb]. destruct (traceIDFn log); reflexivity.
Qed.

Lemma write_disabled rt log ctx level caller msg args :
  Enabled (handler log) ctx level = false ->
  write rt log ctx level caller msg args = [].
Proof. intros Hen. unfold write. rewrite Hen. reflexivity. Qed.

(** ** Hook dispatch *)

Lemma sink_Handle rt h ctx r :
  isWrapper h = false ->
  exists e, Handle rt h ctx r = [e] /\ isSink e = true.
Proof.
  destruct h as [w opts scopes | h' ev | name en scopes]; intros Hw;
    [ | discriminate | ]; eexists; split; reflexivity.
Qed.

Lemma switch_is_hookFor events ctx r :
  (if slog.rLevel r =? slog.LevelDebug then callHook (Events.Debug events) ctx r
   else if slog.rLevel r =? slog.LevelError then callHook (Events.Error events) ctx r
   else if slog.rLevel r =? slog.LevelWarn then callHook (Events.Warn events) ctx r
   else if slog.rLevel r =? slog.LevelInfo then callHook (Events.Info events) ctx r
   else [])
  = callHook (hookFor events (slog.rLevel r)) ctx r.
Proof.
  unfold hookFor, slog.LevelDebug, slog.LevelInfo, slog.LevelWarn, slog.LevelError.
  generalize (slog.rLevel r) as l. intros l.
  repeat case_decide; subst; try reflexivity;
    repeat match goal with
           | |- context [Z.eqb ?a ?b] => destruct (Z.eqb_spec a b); try lia
           end; reflexivity.
Qed.

Lemma callHook_length fn ctx r : (length (callHook fn ctx r) <= 1)%nat.
Proof. destruct fn; cbn; lia. Qed.

Lemma callHook_hooks fn ctx r : hookCalls (callHook fn ctx r) = callHook fn ctx r.
Proof. destruct fn; reflexivity. Qed.

Lemma callHook_sinks fn ctx r : sinkCalls (callHook fn ctx r) = [].
Proof. destruct fn; reflexivity. Qed.

Lemma In_callHook fn c rec (o : option EventFn) ctx r :
  In (CallHook fn c rec) (callHook o ctx r) ->
  o = Some fn /\ c = ctx /\ rec = toRecord r.
Proof.
  destruct o as [g|]; cbn.
  - intros [H | []]. inversion H; subst. auto.
  - intros [].
Qed.

(** The wrapper around a sink: at most one hook call, then the sink. *)
Lemma Handle_wrapper rt h events ctx r :
  isWrapper h = false ->
  exists e,
    Handle rt h ctx r = [e] /\ isSink e = true /\
    Handle rt (logHandler h events) ctx r
      = callHook (hookFor events (slog.rLevel r)) ctx r ++ [e].
Proof.
  intros Hw. destruct (sink_Handle rt h ctx r Hw) as (e & He & Hs).
  exists e. cbn [Handle]. rewrite switch_is_hookFor, He. auto.
Qed.

Lemma hookFor_no_hooks events m :
  hasHooks events = false -> hookFor events (levelOf m) = None.
Proof.
  unfold hasHooks, hookFor. destruct events as [[d|] [i|] [w|] [e|]]; cbn;
    try discriminate; intros _; repeat case_decide; reflexivity.
Qed.

(** The trace of an enabled call on a logger built by [new]. *)
Lemma invoke_new_enabled rt w minLevel serviceName traceFn events m ctx msg args :
  w <> Discard -> minLevel <= levelOf m ->
  let r := builtRecord rt traceFn ctx (levelOf m) (depthOf m) msg args in
  invoke rt (new w minLevel serviceName traceFn events) m ctx msg args =
  [CallCallers (depthOf m); CallNow] ++ traceCall traceFn ctx
  ++ callHook (hookFor events (levelOf m)) ctx r
  ++ Handle rt (jsonSink w minLevel serviceName) ctx r.
Proof.
  intros Hw Hl r. rewrite invoke_unfold, new_discard.
  rewrite bool_decide_eq_false_2 by assumption.
  rewrite write_enabled by (rewrite Enabled_new; apply Z.leb_le; assumption).
  rewrite new_traceIDFn, new_handler. fold r.
  destruct (hasHooks events) eqn:Hh.
  - cbn [Handle]. rewrite switch_is_hookFor. reflexivity.
  - rewrite (hookFor_no_hooks events m Hh). reflexivity.
Qed.

(** Reading the trace of the wrapper: the hook calls and the sink calls. *)
Lemma hookCalls_hook_then_sink (o : option EventFn) ctx r e :
  isSink e = true -> hookCalls (callHook o ctx r ++ [e]) = callHook o ctx r.
Proof.
  intros Hs. destruct o; destruct e; try discriminate; reflexivity.
Qed.

Lemma sinkCalls_hook_then_sink (o : option EventFn) ctx r e :
  isSink e = true -> sinkCalls (callHook o ctx r ++ [e]) = [e].
Proof.
  intros Hs. destruct o; destruct e; try discriminate; reflexivity.
Qed.

Lemma In_hook_then_sink fn c rec (o : option EventFn) ctx r e :
  isSink e = true ->
  In (CallHook fn c rec) (callHook o ctx r ++ [e]) ->
  o = Some fn /\ c = ctx /\ rec = toRecord r.
Proof.
  intros Hs Hin. apply in_app_or in Hin as [Hin | [Hin | []]].
  - exact (In_callHook _ _ _ _ _ _ Hin).
  - subst e. discriminate.
Qed.

(** The object written by the JSON handler of [new]: the time, the level,
    the member ["file"] in place of the source, the message, the service
    name, and the attributes of the record. *)
Lemma jsonSink_members rt w minLevel serviceName ctx r :
  Handle rt (jsonSink w minLevel serviceName) ctx r =
  [WriteJSON w
     (timeMember (slog.rTime r)
      ++ [(slog.LevelKey, slog.AnyLevel (slog.rLevel r));
          ("file", slog.StringValue (location (Frame rt (slog.rPC r))));
          (slog.MessageKey, slog.StringValue (slog.rMessage r));
          ("service", slog.StringValue serviceName)]
      ++ slog.appendAttrs (Some f) [] (slog.rAttrs r))].
Proof.
  unfold jsonSink, timeMember. cbn [Handle]. unfold slog.handle.
  cbn [slog.ReplaceAttr slog.AddSource].
  destruct (slog.rTime r =? 0); reflexivity.
Qed.

Lemma sinkCalls_enabled rt w minLevel serviceName traceFn events m ctx msg args :
  w <> Discard -> minLevel <= levelOf m ->
  sinkCalls (invoke rt (new w minLevel serviceName traceFn events) m ctx msg args)
  = Handle rt (jsonSink w minLevel serviceName) ctx
      (builtRecord rt traceFn ctx (levelOf m) (depthOf m) msg args).
Proof.
  intros Hw Hl. rewrite invoke_new_enabled by assumption.
  rewrite jsonSink_members. unfold sinkCalls. cbn [app].
  rewrite !filter_cons. cbn [isSink]. rewrite !decide_False by (cbn; tauto).
  rewrite !filter_app.
  rewrite (callHook_sinks _ ctx _ : filter _ _ = _).
  destruct traceFn; reflexivity.
Qed.

Lemma hookCalls_enabled rt w minLevel serviceName traceFn events m ctx msg args :
  w <> Discard -> minLevel <= levelOf m ->
  hookCalls (invoke rt (new w minLevel serviceName traceFn events) m ctx msg args)
  = callHook (hookFor events (levelOf m)) ctx
      (builtRecord rt traceFn ctx (levelOf m) (depthOf m) msg args).
Proof.
  intros Hw Hl. rewrite invoke_new_enabled by assumption.
  rewrite jsonSink_members. unfold hookCalls. cbn [app].
  rewrite !filter_cons. cbn [isHook]. rewrite !decide_False by (cbn; tauto).
  rewrite !filter_app.
  rewrite (callHook_hooks _ ctx _ : filter _ _ = _).
  destruct traceFn; cbn; rewrite app_nil_r; reflexivity.
Qed.

(** C1. For every record handed to the hook wrapper around a sink, the
    trace is: at most one hook call, then the one call of the sink.  The
    hook called, if any, is the one registered for exactly the level of the
    record, it receives the context and the normalised record, and the call
    of the sink is the same as without the wrapper.  For a logger built by
    [NewWithEvents] and a method whose level is at or above the minimum
    level, the call ends with that hook call, if any, and with one write of
    the JSON sink. *)
Theorem logHandler_Handle_one_hook_then_sink :
  (forall rt h events ctx r,
      isWrapper h = false ->
      let tr := Handle rt (logHandler h events) ctx r in
      exists e,
        Handle rt h ctx r = [e] /\ isSink e = true /\
        tr = callHook (hookFor events (slog.rLevel r)) ctx r ++ [e] /\
        (length (hookCalls tr) <= 1)%nat /\
        (forall fn c rec,
            In (CallHook fn c rec) tr ->
            hookFor events (slog.rLevel r) = Some fn /\ c = ctx /\ rec = toRecord r) /\
        sinkCalls tr = [e]) /\
  (forall rt w minLevel serviceName traceFn events m ctx msg args,
      w <> Discard -> minLevel <= levelOf m ->
      let r := builtRecord rt traceFn ctx (levelOf m) (depthOf m) msg args in
      let tr := invoke rt (NewWithEvents w minLevel serviceName traceFn events)
                       m ctx msg args in
      exists members,
        tr = [CallCallers (depthOf m); CallNow] ++ traceCall traceFn ctx
             ++ callHook (hookFor events (levelOf m)) ctx r
             ++ [WriteJSON w members] /\
        hookCalls tr = callHook (hookFor events (levelOf m)) ctx r /\
        sinkCalls tr = [WriteJSON w members]).
Proof.
  split.
  - intros rt h events ctx r Hw tr.
    destruct (Handle_wrapper rt h events ctx r Hw) as (e & He & Hs & Htr).
    exists e. subst tr. rewrite Htr.
    split; [exact He |]. split; [exact Hs |]. split; [reflexivity |].
    split; [| split].
    + rewrite hookCalls_hook_then_sink by exact Hs. apply callHook_length.
    + intros fn c rec Hin. exact (In_hook_then_sink _ _ _ _ _ _ _ Hs Hin).
    + apply sinkCalls_hook_then_sink. exact Hs.
  - intros rt w minLevel serviceName traceFn events m ctx msg args Hw Hl r tr.
    subst tr r. unfold NewWithEvents.
    pose proof (sinkCalls_enabled rt w minLevel serviceName traceFn events m ctx msg
                  args Hw Hl) as Hsink.
    rewrite jsonSink_members in Hsink.
    eexists. split; [| split; [| exact Hsink]].
    + rewrite invoke_new_enabled, jsonSink_members by assumption. reflexivity.
    + apply hookCalls_enabled; assumption.
Qed.

Lemma logHandler_Handle_one_hook_then_sink_witness :
  (exists e,
      isSink e = true /\
      Handle exampleRuntime
        (logHandler (jsonSink (Stream "stdout") LevelInfo "SALES") exampleEvents)
        Background (slog.NewRecord 1700 slog.LevelError "boom" 4242)
      = [CallHook "alert" Background
           (toRecord (slog.NewRecord 1700 slog.LevelError "boom" 4242)); e]) /\
  (exists members,
      sinkCalls (invoke exampleRuntime
                   (NewWithEvents (Stream "stdout") LevelInfo "SALES"
                      (Some exampleTrace) exampleEvents)
                   MError Background "boom" [])
      = [WriteJSON (Stream "stdout") members]).
Proof.
  split.
  - destruct (proj1 logHandler_Handle_one_hook_then_sink exampleRuntime
                (jsonSink (Stream "stdout") LevelInfo "SALES") exampleEvents Background
                (slog.NewRecord 1700 slog.LevelError "boom" 4242) eq_refl)
      as (e & _ & Hs & Htr & _).
    exists e. split; [exact Hs | exact Htr].
  - destruct (proj2 logHandler_Handle_one_hook_then_sink exampleRuntime
                (Stream "stdout") LevelInfo "SALES" (Some exampleTrace)
                exampleEvents MError Background "boom" []
                ltac:(discriminate) ltac:(vm_compute; discriminate))
      as (members & _ & _ & Hs).
    exists members. exact Hs.
Defined.

(** ** Disabled levels and discarding loggers *)

(** C2. On a logger built by [new] (so by [New] or [NewWithEvents]) with
    minimum level [minLevel], a method whose level is strictly below
    [minLevel] has the empty trace: no hook is called, nothing reaches the
    sink, and neither [runtime.Callers] nor the clock nor the trace
    function is called. *)
Theorem below_minimum_no_effect rt w minLevel serviceName traceFn events m ctx msg args :
  levelOf m < minLevel ->
  invoke rt (new w minLevel serviceName traceFn events) m ctx msg args = [].
Proof.
  intros Hlt. rewrite invoke_unfold.
  destruct (discard _); [reflexivity |].
  apply write_disabled. rewrite Enabled_new. apply Z.leb_gt. exact Hlt.
Qed.

Lemma below_minimum_no_effect_witness :
  levelOf (MInfoc 5) < LevelWarn /\
  invoke exampleRuntime
    (new (Stream "stdout") LevelWarn "SALES" (Some exampleTrace) exampleEvents)
    (MInfoc 5) Background "startup" [slog.AString "k"; slog.AString "v"] = [].
Proof.
  split; [reflexivity |].
  apply (below_minimum_no_effect exampleRuntime (Stream "stdout") LevelWarn "SALES"
           (Some exampleTrace) exampleEvents (MInfoc 5) Background "startup"
           [slog.AString "k"; slog.AString "v"]).
  reflexivity.
Defined.

(** C3. A logger whose [discard] flag is set has the empty trace for each
    of the eight methods, whatever the level and the arguments:
    [runtime.Callers] is not called, no hook is called, no record reaches
    the sink and the trace function is not called.  [new] sets the flag
    exactly when the writer is [io.Discard]. *)
Theorem discard_no_effect rt log m ctx msg args w minLevel serviceName traceFn events :
  discard log = true ->
  invoke rt log m ctx msg args = [] /\
  (discard (new w minLevel serviceName traceFn events) = true <-> w = Discard).
Proof.
  intros Hd. split.
  - rewrite invoke_unfold, Hd. reflexivity.
  - rewrite new_discard. apply bool_decide_eq_true.
Qed.

Lemma discard_no_effect_witness :
  discard (new Discard LevelDebug "SALES" (Some exampleTrace) exampleEvents) = true /\
  invoke exampleRuntime
    (new Discard LevelDebug "SALES" (Some exampleTrace) exampleEvents)
    MError Background "boom" [] = [].
Proof.
  split; [reflexivity |].
  apply (discard_no_effect exampleRuntime
           (new Discard LevelDebug "SALES" (Some exampleTrace) exampleEvents)
           MError Background "boom" [] Discard LevelDebug "SALES" None exampleEvents).
  reflexivity.
Defined.

(** ** What the JSON sink of [new] writes *)

(** The last element of a path: a name without slash is its own base,
    and the base of a directory, a slash and the name is the name. *)
Lemma list_ascii_of_append (a b : string) :
  list_ascii_of_string (a +:+ b) = list_ascii_of_string a ++ list_ascii_of_string b.
Proof.
  induction a as [|x a IH]; unfold_append; cbn [list_ascii_of_string app];
    [reflexivity | rewrite IH; reflexivity].
Qed.

Lemma lastElement_app l rest :
  noSlash l -> lastElement (l ++ "/"%char :: rest) = l.
Proof.
  induction 1 as [|c l Hc _ IH]; cbn [app lastElement]; [reflexivity |].
  rewrite Hc, IH. reflexivity.
Qed.

Lemma lastElement_all l : noSlash l -> lastElement l = l.
Proof.
  induction 1 as [|c l Hc _ IH]; cbn [lastElement]; [reflexivity |].
  rewrite Hc, IH. reflexivity.
Qed.

Lemma dropSlashes_head l rest :
  noSlash l -> l <> [] -> dropSlashes (l ++ rest) = l ++ rest.
Proof.
  intros Hl Hne. destruct Hl as [|c l Hc _]; [contradiction |].
  cbn [app dropSlashes]. rewrite Hc. reflexivity.
Qed.

Lemma Base_last_element dir name :
  name <> EmptyString -> noSlash (list_ascii_of_string name) ->
  Base name = name /\ Base (dir +:+ "/" +:+ name) = name.
Proof.
  intros Hne Hns.
  assert (Hrev : noSlash (rev (list_ascii_of_string name)))
    by (apply Forall_rev; exact Hns).
  assert (Hrne : rev (list_ascii_of_string name) <> []).
  { intros E. apply (f_equal (@rev ascii)) in E. rewrite rev_involutive in E.
    cbn in E. apply Hne. rewrite <- (string_of_list_ascii_of_string name), E.
    reflexivity. }
  assert (Hback : string_of_list_ascii (rev (rev (list_ascii_of_string name))) = name)
    by (rewrite rev_involutive; apply string_of_list_ascii_of_string).
  split; unfold Base.
  - rewrite (proj2 (String.eqb_neq _ _) Hne).
    rewrite <- (app_nil_r (rev (list_ascii_of_string name))) at 1.
    rewrite dropSlashes_head, app_nil_r, lastElement_all by assumption.
    destruct (rev (list_ascii_of_string name)); [contradiction | exact Hback].
  - assert (Hp : String.eqb (dir +:+ "/" +:+ name) EmptyString = false)
      by (apply String.eqb_neq; destruct dir; discriminate).
    rewrite Hp, !list_ascii_of_append.
    change (list_ascii_of_string "/") with ["/"%char].
    rewrite !rev_app_distr. change (rev ["/"%char]) with ["/"%char].
    rewrite <- app_assoc. cbn [app].
    rewrite dropSlashes_head, lastElement_app by assumption.
    destruct (rev (list_ascii_of_string name)); [contradiction | exact Hback].
Qed.

(** C5. On a logger built by [New] or by [NewWithEvents], every enabled
    call writes one JSON object that has the member ["service"] with the
    service name given at construction, and in which the source location
    is the member ["file"] with the text [base:line], [base] being the last
    element of the path of the caller's file: when the file is a name
    without slash, alone or after a directory and a slash, the text is
    [name:line] and the directory is not written. *)
Theorem new_tags_service_and_file rt w minLevel serviceName traceFn events m ctx msg args :
  w <> Discard -> minLevel <= levelOf m ->
  let src := Frame rt (Callers rt (depthOf m)) in
  let emitted log := sinkCalls (invoke rt log m ctx msg args) in
  exists members,
    emitted (New w minLevel serviceName traceFn) = [WriteJSON w members] /\
    emitted (NewWithEvents w minLevel serviceName traceFn events) = [WriteJSON w members] /\
    members =
      timeMember (Now rt)
      ++ [("level", slog.AnyLevel (levelOf m));
          ("file", slog.StringValue (Base (slog.File src) +:+ ":" +:+ pretty (slog.Line src)));
          ("msg", slog.StringValue msg);
          ("service", slog.StringValue serviceName)]
      ++ slog.appendAttrs (Some f) []
           (slog.argsToAttrs (tracedArgs traceFn ctx args)) /\
    In ("service", slog.StringValue serviceName) members /\
    In ("file", slog.StringValue (Base (slog.File src) +:+ ":" +:+ pretty (slog.Line src)))
       members /\
    (forall dir name,
        name <> EmptyString -> noSlash (list_ascii_of_string name) ->
        slog.File src = name \/ slog.File src = dir +:+ "/" +:+ name ->
        Base (slog.File src) = name /\
        In ("file", slog.StringValue (name +:+ ":" +:+ pretty (slog.Line src))) members) /\
    (slog.File src = EmptyString ->
     In ("file", slog.StringValue ("." +:+ ":" +:+ pretty (slog.Line src))) members).
Proof.
  intros Hw Hl src emitted. eexists. subst emitted. cbn beta.
  unfold New, NewWithEvents. rewrite !sinkCalls_enabled by assumption.
  rewrite jsonSink_members.
  split; [reflexivity | split; [reflexivity | split; [reflexivity |]]].
  assert (Hfile : In ("file", slog.StringValue
                                (Base (slog.File src) +:+ ":" +:+ pretty (slog.Line src)))
                     (timeMember (Now rt)
                      ++ [("level", slog.AnyLevel (levelOf m));
                          ("file", slog.StringValue
                                     (Base (slog.File src) +:+ ":" +:+ pretty (slog.Line src)));
                          ("msg", slog.StringValue msg);
                          ("service", slog.StringValue serviceName)]
                      ++ slog.appendAttrs (Some f) []
                           (slog.argsToAttrs (tracedArgs traceFn ctx args))))
    by (apply in_or_app; right; cbn; tauto).
  split; [apply in_or_app; right; cbn; tauto |].
  split; [exact Hfile |]. split.
  - intros dir name Hne Hns Hpath.
    destruct (Base_last_element dir name Hne Hns) as [H1 H2].
    assert (Hbase : Base (slog.File src) = name)
      by (destruct Hpath as [-> | ->]; assumption).
    split; [exact Hbase |]. rewrite <- Hbase. exact Hfile.
  - intros Hempty. replace "."%string with (Base (slog.File src))
      by (rewrite Hempty; reflexivity).
    exact Hfile.
Qed.

Lemma new_tags_service_and_file_witness :
  exists members,
    sinkCalls (invoke exampleRuntime
                 (NewWithEvents (Stream "stdout") LevelInfo "SALES" (Some exampleTrace)
                    exampleEvents)
                 MInfo Background "startup"
                 [slog.AString "GOMAXPROCS"; slog.AValue (slog.Int64Value 8)])
    = [WriteJSON (Stream "stdout") members] /\
    In ("service", slog.StringValue "SALES") members /\
    In ("file", slog.StringValue ("main.go" +:+ ":" +:+ pretty 39)) members.
Proof.
  destruct (new_tags_service_and_file exampleRuntime (Stream "stdout") LevelInfo "SALES"
              (Some exampleTrace) exampleEvents MInfo Background "startup"
              [slog.AString "GOMAXPROCS"; slog.AValue (slog.Int64Value 8)]
              ltac:(discriminate) ltac:(vm_compute; discriminate))
    as (members & _ & Hemit & _ & Hservice & _ & Hname & _).
  exists members. split; [exact Hemit |]. split; [exact Hservice |].
  exact (proj2 (Hname "/src/sales" "main.go" ltac:(discriminate)
                  ltac:(repeat constructor) (or_intror eq_refl))).
Defined.

(** ** Trace injection *)

Lemma argsToAttrs_app_bounded n : forall args more,
  (length args <= n)%nat -> dangling args = false ->
  slog.argsToAttrs (args ++ more) = slog.argsToAttrs args ++ slog.argsToAttrs more.
Proof.
  induction n as [|n IH]; intros args more Hlen Hd.
  - destruct args; [reflexivity | cbn in Hlen; lia].
  - destruct args as [|a args]; [reflexivity |].
    destruct a as [x | a | v].
    + destruct args as [|b args]; [discriminate |].
      cbn in Hlen. cbn [dangling] in Hd.
      change (slog.argsToAttrs ((slog.AString x :: b :: args) ++ more))
        with (let a := (x, slog.AnyValue b) in
              if slog.isEmptyGroup (slog.Val a) then slog.argsToAttrs (args ++ more)
              else a :: slog.argsToAttrs (args ++ more)).
      change (slog.argsToAttrs (slog.AString x :: b :: args))
        with (let a := (x, slog.AnyValue b) in
              if slog.isEmptyGroup (slog.Val a) then slog.argsToAttrs args
              else a :: slog.argsToAttrs args).
      cbn zeta. rewrite (IH args more) by (assumption || lia).
      destruct (slog.isEmptyGroup _); reflexivity.
    + cbn in Hlen. cbn [dangling] in Hd.
      cbn [app slog.argsToAttrs]. rewrite (IH args more) by (assumption || lia).
      destruct (slog.isEmptyGroup _); reflexivity.
    + cbn in Hlen. cbn [dangling] in Hd.
      cbn [app slog.argsToAttrs]. rewrite (IH args more) by (assumption || lia).
      destruct (slog.isEmptyGroup _); reflexivity.
Qed.

(** When the arguments do not end in a key without a value, what is
    appended to them is parsed on its own. *)
Lemma argsToAttrs_app args more :
  dangling args = false ->
  slog.argsToAttrs (args ++ more) = slog.argsToAttrs args ++ slog.argsToAttrs more.
Proof. intros Hd. apply (argsToAttrs_app_bounded (length args)); [lia | exact Hd]. Qed.

Lemma appendAttrs_app rep gs l1 l2 :
  slog.appendAttrs rep gs (l1 ++ l2) = slog.appendAttrs rep gs l1 ++ slog.appendAttrs rep gs l2.
Proof. unfold slog.appendAttrs. apply flat_map_app. Qed.

Lemma builtins_no_trace_id rt serviceName m msg v :
  ~ In ("trace_id", v) (builtins rt serviceName m msg).
Proof.
  unfold builtins, timeMember. intros H. apply in_app_or in H as [H | H].
  - destruct (Now rt =? 0); cbn in H; [contradiction |].
    destruct H as [H | []]. discriminate.
  - cbn in H. repeat (destruct H as [H | H]; [discriminate |]). contradiction.
Qed.

Lemma emitted_members rt w minLevel serviceName traceFn events m ctx msg args :
  w <> Discard -> minLevel <= levelOf m ->
  sinkCalls (invoke rt (new w minLevel serviceName traceFn events) m ctx msg args)
  = [WriteJSON w
       (builtins rt serviceName m msg
        ++ slog.appendAttrs (Some f) []
             (slog.argsToAttrs (tracedArgs traceFn ctx args)))].
Proof.
  intros Hw Hl. rewrite sinkCalls_enabled by assumption.
  rewrite jsonSink_members. unfold builtins. rewrite <- app_assoc. reflexivity.
Qed.

(** C4, as stated, fails.  With a trace function and arguments that end in
    a key without a value, the appended ["trace_id"] is taken as the value
    of that key and the trace id is written under ["!BADKEY"]: the object
    has no member ["trace_id"].  Without a trace function, a ["trace_id"]
    supplied by the caller is written. *)
Lemma trace_id_counterexample :
  (exists members,
      sinkCalls (Error exampleRuntime
                   (New (Stream "stdout") LevelInfo "SALES" (Some exampleTrace))
                   Background "boom" [slog.AString "user"])
      = [WriteJSON (Stream "stdout") members] /\
      members = [("time", slog.TimeValue 1700); ("level", slog.AnyLevel 8);
                 ("file", slog.StringValue "main.go:39"); ("msg", slog.StringValue "boom");
                 ("service", slog.StringValue "SALES");
                 ("user", slog.StringValue "trace_id");
                 ("!BADKEY", slog.StringValue "T1")] /\
      forall v, ~ In ("trace_id", v) members) /\
  (exists members,
      sinkCalls (Error exampleRuntime
                   (New (Stream "stdout") LevelInfo "SALES" None)
                   Background "boom" [slog.AString "trace_id"; slog.AString "mine"])
      = [WriteJSON (Stream "stdout") members] /\
      In ("trace_id", slog.StringValue "mine") members).
Proof.
  split.
  - eexists. split; [vm_compute; reflexivity |]. split; [reflexivity |].
    intros v H. cbn in H.
    repeat (destruct H as [H | H]; [discriminate |]). contradiction.
  - eexists. split; [vm_compute; reflexivity |].
    cbn. tauto.
Qed.

(** C4, amended. On a logger built by [new], an enabled call writes one
    object.  With a trace function, if the caller's arguments do not end in
    a key without a value, the last member of the object is ["trace_id"]
    with the value the function returns for the context.  Without a trace
    function the logger adds no ["trace_id"]: a member ["trace_id"] of the
    object is one written for the caller's own arguments. *)
Theorem trace_id_injected rt w minLevel serviceName traceFn events m ctx msg args :
  w <> Discard -> minLevel <= levelOf m ->
  exists members,
    sinkCalls (invoke rt (new w minLevel serviceName traceFn events) m ctx msg args)
    = [WriteJSON w members] /\
    match traceFn with
    | Some fn =>
        dangling args = false ->
        exists before, members = before ++ [("trace_id", slog.StringValue (fn ctx))]
    | None =>
        members = builtins rt serviceName m msg
                  ++ slog.appendAttrs (Some f) [] (slog.argsToAttrs args) /\
        forall v, In ("trace_id", v) members ->
                  In ("trace_id", v) (slog.appendAttrs (Some f) [] (slog.argsToAttrs args))
    end.
Proof.
  intros Hw Hl. eexists. split; [apply emitted_members; assumption |].
  destruct traceFn as [fn|]; cbn [tracedArgs].
  - intros Hd. rewrite argsToAttrs_app by exact Hd. rewrite appendAttrs_app.
    eexists. rewrite app_assoc. reflexivity.
  - split; [reflexivity |]. intros v H. apply in_app_or in H as [H | H].
    + exfalso. exact (builtins_no_trace_id _ _ _ _ _ H).
    + exact H.
Qed.

Lemma trace_id_injected_witness :
  exists before,
    sinkCalls (invoke exampleRuntime
                 (new (Stream "stdout") LevelInfo "SALES" (Some exampleTrace) exampleEvents)
                 MError Background "boom" [slog.AString "user"; slog.AString "ann"])
    = [WriteJSON (Stream "stdout") (before ++ [("trace_id", slog.StringValue "T1")])].
Proof.
  destruct (trace_id_injected exampleRuntime (Stream "stdout") LevelInfo "SALES"
              (Some exampleTrace) exampleEvents MError Background "boom"
              [slog.AString "user"; slog.AString "ann"]
              ltac:(discriminate) ltac:(vm_compute; discriminate))
    as (members & Hemit & Hlast).
  destruct (Hlast eq_refl) as (before & Hm).
  exists before. rewrite Hemit, Hm. reflexivity.
Defined.

(** ** The record a hook receives *)

Lemma toRecord_Attributes r : Record.Attributes (toRecord r) = attrMap (slog.rAttrs r).
Proof. reflexivity. Qed.

Lemma attrMap_snoc attrs a :
  attrMap (attrs ++ [a]) = <[slog.Key a := slog.Value_Any (slog.Val a)]> (attrMap attrs).
Proof. unfold attrMap. rewrite foldl_app. reflexivity. Qed.

Lemma attrMap_lookup_None attrs k :
  (forall v, ~ In (k, v) attrs) -> attrMap attrs !! k = None.
Proof.
  induction attrs as [|a attrs IH] using rev_ind; intros Hk.
  - apply lookup_empty.
  - rewrite attrMap_snoc. destruct a as [k' v']. cbn [slog.Key slog.Val fst snd].
    rewrite lookup_insert_ne.
    + apply IH. intros v Hin. apply (Hk v). apply in_or_app. left. exact Hin.
    + intros ->. apply (Hk v'). apply in_or_app. right. left. reflexivity.
Qed.

Lemma attrMap_lookup_In attrs a :
  In a attrs -> is_Some (attrMap attrs !! slog.Key a).
Proof.
  induction attrs as [|b attrs IH] using rev_ind; intros Hin; [destruct Hin |].
  rewrite attrMap_snoc, lookup_insert. case_decide; [eauto |].
  apply in_app_or in Hin as [Hin | [-> | []]]; [apply IH; exact Hin | congruence].
Qed.

(** C10, as stated, fails: with a trace function and arguments that end
    in a key without a value, the record the hook receives has no
    attribute ["trace_id"]; the trace id is stored under ["!BADKEY"]. *)
Lemma hook_record_counterexample :
  exists rec,
    hookCalls (Error exampleRuntime
                 (NewWithEvents (Stream "stdout") LevelInfo "SALES" (Some exampleTrace)
                    exampleEvents)
                 Background "boom" [slog.AString "user"])
    = [CallHook "alert" Background rec] /\
    Record.Attributes rec !! "trace_id" = None /\
    Record.Attributes rec !! "user" = Some (slog.AString "trace_id") /\
    Record.Attributes rec !! "!BADKEY" = Some (slog.AString "T1").
Proof.
  eexists. split; [vm_compute; reflexivity |].
  repeat split; vm_compute; reflexivity.
Qed.

(** C10, amended. On a logger built by [new], the hook registered for the
    level of an enabled call receives one record: its message, level and
    time are those of the call, its attributes are those parsed from the
    arguments of the call, with the pair of the trace id appended when a
    trace function is set.  Every attribute parsed from the caller's
    arguments has its key in the record and, when a trace function is set
    and the caller's arguments do not end in a key without a value,
    ["trace_id"] holds the value of the trace function.  The service name
    is not part of the record: the record is the same for every service
    name, and it has an attribute ["service"] only if one is parsed from
    the arguments of the call. *)
Theorem hook_record_contents rt w minLevel serviceName traceFn events m ctx msg args fn :
  w <> Discard -> minLevel <= levelOf m -> hookFor events (levelOf m) = Some fn ->
  let attrs := slog.argsToAttrs (tracedArgs traceFn ctx args) in
  exists rec,
    hookCalls (invoke rt (new w minLevel serviceName traceFn events) m ctx msg args)
    = [CallHook fn ctx rec] /\
    Record.Message rec = msg /\ Record.Level rec = levelOf m /\
    Record.Time rec = Now rt /\
    Record.Attributes rec = attrMap attrs /\
    (forall a, In a attrs -> is_Some (Record.Attributes rec !! slog.Key a)) /\
    (dangling args = false ->
     (forall a, In a (slog.argsToAttrs args) ->
                is_Some (Record.Attributes rec !! slog.Key a)) /\
     match traceFn with
     | Some traceF =>
         Record.Attributes rec !! "trace_id" = Some (slog.AString (traceF ctx))
     | None => Record.Attributes rec = attrMap (slog.argsToAttrs args)
     end) /\
    ((forall v, ~ In ("service", v) attrs) ->
     Record.Attributes rec !! "service" = None) /\
    (forall otherName,
        hookCalls (invoke rt (new w minLevel otherName traceFn events) m ctx msg args)
        = [CallHook fn ctx rec]).
Proof.
  intros Hw Hl Hfn attrs.
  exists (toRecord (builtRecord rt traceFn ctx (levelOf m) (depthOf m) msg args)).
  rewrite toRecord_Attributes.
  change (slog.rAttrs (builtRecord rt traceFn ctx (levelOf m) (depthOf m) msg args))
    with attrs.
  split; [rewrite hookCalls_enabled, Hfn by assumption; reflexivity |].
  do 4 (split; [reflexivity |]).
  split; [intros a Ha; apply attrMap_lookup_In; exact Ha |].
  split; [| split].
  - intros Hd. subst attrs. destruct traceFn as [traceF|]; cbn [tracedArgs].
    + rewrite argsToAttrs_app by exact Hd. cbn [slog.argsToAttrs slog.AnyValue slog.Val snd slog.isEmptyGroup].
      rewrite attrMap_snoc. cbn [slog.Key slog.Val fst snd slog.Value_Any]. split.
      * intros a Ha. rewrite lookup_insert. case_decide; [eauto |].
        apply attrMap_lookup_In. exact Ha.
      * apply lookup_insert_eq.
    + split; [intros a Ha; apply attrMap_lookup_In; exact Ha | reflexivity].
  - intros Hs. apply attrMap_lookup_None. exact Hs.
  - intros otherName. rewrite hookCalls_enabled, Hfn by assumption. reflexivity.
Qed.

Lemma hook_record_contents_witness :
  exists rec,
    hookCalls (invoke exampleRuntime
                 (new (Stream "stdout") LevelInfo "SALES" (Some exampleTrace) exampleEvents)
                 MError Background "boom" [slog.AString "user"; slog.AString "ann"])
    = [CallHook "alert" Background rec] /\
    Record.Attributes rec !! "trace_id" = Some (slog.AString "T1") /\
    Record.Attributes rec !! "service" = None.
Proof.
  destruct (hook_record_contents exampleRuntime (Stream "stdout") LevelInfo "SALES"
              (Some exampleTrace) exampleEvents MError Background "boom"
              [slog.AString "user"; slog.AString "ann"] "alert"
              ltac:(discriminate) ltac:(vm_compute; discriminate) eq_refl)
    as (rec & Hcall & _ & _ & _ & _ & _ & Htrace & Hservice & _).
  exists rec. split; [exact Hcall |]. split.
  - exact (proj2 (Htrace eq_refl)).
  - apply Hservice. intros v H. cbn in H.
    repeat (destruct H as [H | H]; [discriminate |]). contradiction.
Defined.

(** ** The log filter *)

Lemma ToLower_empty s : logfmt.ToLower s = EmptyString <-> s = EmptyString.
Proof. destruct s; cbn; split; intros H; (reflexivity || discriminate). Qed.

Lemma eqb_ToLower_empty flag :
  String.eqb (logfmt.ToLower flag) EmptyString = bool_decide (flag = EmptyString).
Proof.
  destruct flag; cbn; [reflexivity |].
  symmetry. apply bool_decide_eq_false_2. discriminate.
Qed.

Section Filter.
Variable Unmarshal : string -> option (gmap string logfmt.jvalue).
Variable rangeOrder : gmap string logfmt.jvalue -> list (string * logfmt.jvalue).
Variable fmtOther : bool -> logfmt.jvalue -> string.

#[local] Abbreviation handleLine := (logfmt.handleLine Unmarshal rangeOrder fmtOther).
#[local] Abbreviation loop := (logfmt.loop Unmarshal rangeOrder fmtOther).
#[local] Abbreviation main := (logfmt.main Unmarshal rangeOrder fmtOther).
#[local] Abbreviation extras := (logfmt.extras fmtOther).

(** One iteration of the loop, by the result of the body. *)
Lemma loop_Continue service s rest stdout printed :
  handleLine service s = logfmt.Continue printed ->
  loop service (s :: rest) stdout = loop service rest (stdout ++ printed).
Proof. intros H. cbn [logfmt.loop]. rewrite H. reflexivity. Qed.

Lemma loop_Panic service s rest stdout :
  handleLine service s = logfmt.Panic ->
  loop service (s :: rest) stdout = logfmt.Crash stdout.
Proof. intros H. cbn [logfmt.loop]. rewrite H. reflexivity. Qed.

Lemma extras_filter kvs : extras kvs = extras (filter isExtra kvs).
Proof.
  induction kvs as [|[k v] kvs IH]; [reflexivity |].
  rewrite filter_cons. cbn [logfmt.extras].
  destruct (decide (isExtra (k, v))) as [Hk | Hk]; unfold isExtra in Hk; cbn [fst] in Hk.
  - cbn [logfmt.extras]. rewrite Hk, IH. reflexivity.
  - apply not_false_is_true in Hk. rewrite Hk. exact IH.
Qed.

(** With one field beside the main ones, the order of the iteration over
    the map does not show. *)
Lemma extras_single m kv :
  Permutation (rangeOrder m) (map_to_list m) ->
  filter isExtra (map_to_list m) = [kv] ->
  extras (rangeOrder m) = extras [kv].
Proof.
  intros Hperm Hone. rewrite extras_filter.
  assert (Hp : Permutation (filter isExtra (rangeOrder m)) [kv]).
  { rewrite <- Hone. apply filter_Permutation. exact Hperm. }
  apply Permutation_sym, Permutation_length_1_inv in Hp. rewrite Hp. reflexivity.
Qed.

End Filter.

(** C6. Without the flag [-service], the filter given the one line
    [salesLine] prints exactly
    [SALES: t1: f.go:10: INFO: abc: hello: extra[x]], and given the same
    line without [trace_id] it prints the same with the nil UUID in the
    place of the trace id; this for every decoder that reads the two lines
    as the JSON objects they are and for every order of iteration over the
    map. *)
Theorem filter_formats_sales_line Unmarshal rangeOrder fmtOther :
  (forall m, Permutation (rangeOrder m) (map_to_list m)) ->
  Unmarshal salesLine = Some salesMap ->
  Unmarshal salesLineNoTrace = Some salesMapNoTrace ->
  logfmt.main Unmarshal rangeOrder fmtOther EmptyString [salesLine]
  = logfmt.Exit ["SALES: t1: f.go:10: INFO: abc: hello: extra[x]"] /\
  logfmt.main Unmarshal rangeOrder fmtOther EmptyString [salesLineNoTrace]
  = logfmt.Exit
      ["SALES: t1: f.go:10: INFO: 00000000-0000-0000-0000-000000000000: hello: extra[x]"].
Proof.
  intros Hperm H1 H2.
  assert (E1 : logfmt.extras fmtOther (rangeOrder salesMap)
               = logfmt.extras fmtOther [("extra", logfmt.JString "x")]).
  { apply extras_single; [apply Hperm | vm_compute; reflexivity]. }
  assert (E2 : logfmt.extras fmtOther (rangeOrder salesMapNoTrace)
               = logfmt.extras fmtOther [("extra", logfmt.JString "x")]).
  { apply extras_single; [apply Hperm | vm_compute; reflexivity]. }
  unfold logfmt.main. cbn [logfmt.ToLower logfmt.loop]. unfold logfmt.handleLine.
  rewrite H1, H2. cbn [String.eqb negb]. unfold logfmt.format.
  rewrite E1, E2. split; vm_compute; reflexivity.
Qed.

Lemma filter_formats_sales_line_witness :
  logfmt.main logfmt.decode map_to_list (fun _ _ => EmptyString) EmptyString [salesLine]
  = logfmt.Exit ["SALES: t1: f.go:10: INFO: abc: hello: extra[x]"].
Proof.
  assert (Hperm : forall m : gmap string logfmt.jvalue,
             Permutation (map_to_list m) (map_to_list m)) by (intros m; reflexivity).
  assert (H1 : logfmt.decode salesLine = Some salesMap) by (vm_compute; reflexivity).
  assert (H2 : logfmt.decode salesLineNoTrace = Some salesMapNoTrace)
    by (vm_compute; reflexivity).
  exact (proj1 (filter_formats_sales_line logfmt.decode map_to_list
                  (fun _ _ => EmptyString) Hperm H1 H2)).
Defined.

(** C7. A line that [json.Unmarshal] rejects is printed as it is when the
    flag [-service] is empty and is dropped when the flag is set; in both
    cases the loop goes on with the next line: a run on that line alone
    returns, and a run on more lines continues with the rest. *)
Theorem malformed_line_echoed_or_dropped Unmarshal rangeOrder fmtOther flag s rest stdout :
  Unmarshal s = None ->
  let echoed := if decide (flag = EmptyString) then [s] else [] in
  logfmt.handleLine Unmarshal rangeOrder fmtOther (logfmt.ToLower flag) s
  = logfmt.Continue echoed /\
  logfmt.main Unmarshal rangeOrder fmtOther flag [s] = logfmt.Exit echoed /\
  logfmt.loop Unmarshal rangeOrder fmtOther (logfmt.ToLower flag) (s :: rest) stdout
  = logfmt.loop Unmarshal rangeOrder fmtOther (logfmt.ToLower flag) rest (stdout ++ echoed).
Proof.
  intros Herr echoed.
  assert (Hline : logfmt.handleLine Unmarshal rangeOrder fmtOther (logfmt.ToLower flag) s
                  = logfmt.Continue echoed).
  { unfold logfmt.handleLine. rewrite Herr, eqb_ToLower_empty. subst echoed.
    unfold bool_decide. destruct (decide_rel eq flag EmptyString) as [He | He].
    - rewrite decide_True by exact He. reflexivity.
    - rewrite decide_False by exact He. reflexivity. }
  split; [exact Hline | split].
  - unfold logfmt.main. rewrite (loop_Continue _ _ _ _ _ _ _ _ Hline). reflexivity.
  - apply loop_Continue. exact Hline.
Qed.

Lemma malformed_line_echoed_or_dropped_witness :
  logfmt.main logfmt.decode map_to_list (fun _ _ => EmptyString) EmptyString ["oops {"]
  = logfmt.Exit ["oops {"] /\
  logfmt.main logfmt.decode map_to_list (fun _ _ => EmptyString) "sales" ["oops {"]
  = logfmt.Exit [].
Proof.
  split.
  - exact (proj1 (proj2 (malformed_line_echoed_or_dropped logfmt.decode map_to_list
                           (fun _ _ => EmptyString) EmptyString "oops {" [] [] eq_refl))).
  - exact (proj1 (proj2 (malformed_line_echoed_or_dropped logfmt.decode map_to_list
                           (fun _ _ => EmptyString) "sales" "oops {" [] [] eq_refl))).
Defined.

(** C9. With the flag [-service] set, a line that decodes to a map whose
    entry ["service"] is missing or is not a string makes the type
    assertion [m["service"].(string)] panic: the iteration panics and the
    program stops there, with nothing printed for that line or for the
    lines after it. *)
Theorem service_assertion_panics Unmarshal rangeOrder fmtOther flag s m rest stdout :
  flag <> EmptyString ->
  Unmarshal s = Some m ->
  (m !! "service" = None \/
   exists v, m !! "service" = Some v /\ forall sv, v <> logfmt.JString sv) ->
  logfmt.handleLine Unmarshal rangeOrder fmtOther (logfmt.ToLower flag) s = logfmt.Panic /\
  logfmt.loop Unmarshal rangeOrder fmtOther (logfmt.ToLower flag) (s :: rest) stdout
  = logfmt.Crash stdout /\
  logfmt.main Unmarshal rangeOrder fmtOther flag (s :: rest) = logfmt.Crash [].
Proof.
  intros Hflag Hm Hsvc.
  assert (Hline : logfmt.handleLine Unmarshal rangeOrder fmtOther (logfmt.ToLower flag) s
                  = logfmt.Panic).
  { unfold logfmt.handleLine. rewrite Hm, eqb_ToLower_empty.
    rewrite bool_decide_eq_false_2 by exact Hflag. cbn [negb].
    destruct Hsvc as [-> | (v & -> & Hv)]; [reflexivity |].
    destruct v; try reflexivity. exfalso. exact (Hv _ eq_refl). }
  split; [exact Hline | split].
  - apply loop_Panic. exact Hline.
  - unfold logfmt.main. apply loop_Panic. exact Hline.
Qed.

Lemma service_assertion_panics_witness :
  logfmt.main logfmt.decode map_to_list (fun _ _ => EmptyString) "sales"
    ["{" +:+ member "msg" "hello" +:+ "}"; salesLine]
  = logfmt.Crash [].
Proof.
  assert (Hm : logfmt.decode ("{" +:+ member "msg" "hello" +:+ "}")
               = Some (logfmt.toMap [("msg", logfmt.JString "hello")]))
    by (vm_compute; reflexivity).
  exact (proj2 (proj2 (service_assertion_panics logfmt.decode map_to_list
                         (fun _ _ => EmptyString) "sales"
                         ("{" +:+ member "msg" "hello" +:+ "}")
                         (logfmt.toMap [("msg", logfmt.JString "hello")])
                         [salesLine] []
                         ltac:(discriminate) Hm (or_introl eq_refl)))).
Defined.

(** ** Derived pipelines in memory *)

(** C8, as stated, fails: the pipeline that [WithAttrs] returns does not
    share the hook table of the original.  It is a new struct with its own
    field [events]; after an assignment to the table of the original, the
    derived pipeline still reads the table it was built with. *)
Lemma derived_table_counterexample :
  exists q mem',
    WithAttrs_ptr exampleMemory 0%nat [("scope", slog.StringValue "db")] = Some (q, mem') /\
    q <> 0%nat /\
    eventsOf (assignEvents mem' 0%nat (Events.mk None None None None)) 0%nat
    = Some (Events.mk None None None None) /\
    eventsOf (assignEvents mem' 0%nat (Events.mk None None None None)) q
    = Some exampleEvents /\
    ~ sharesTable mem' 0%nat q.
Proof.
  eexists. eexists. split; [reflexivity |].
  split; [discriminate |]. split; [reflexivity |]. split; [reflexivity |].
  intros Hshare. specialize (Hshare (Events.mk None None None None)).
  discriminate Hshare.
Qed.

Lemma derive_allocates (mem : Memory) (p : pointer) (s new : logHandlerStruct) :
  mem !! p = Some s ->
  let q := (allocate mem new).1 in
  let mem' := (allocate mem new).2 in
  q <> p /\ mem' !! p = Some s /\ mem' !! q = Some new /\
  (forall events, eventsOf (assignEvents mem' p events) q = Some (eventsField new)).
Proof.
  intros Hp q mem'. subst q mem'. cbn [allocate fst snd].
  assert (Hlt : (p < length mem)%nat) by (eapply lookup_lt_Some; exact Hp).
  assert (Hold : (mem ++ [new]) !! p = Some s) by (rewrite lookup_app_l; assumption).
  assert (Hnew : (mem ++ [new]) !! length mem = Some new)
    by (rewrite list_lookup_middle; reflexivity).
  split; [lia |]. split; [exact Hold |]. split; [exact Hnew |].
  intros events. unfold eventsOf, assignEvents. rewrite Hold.
  rewrite list_lookup_insert_ne by lia. rewrite Hnew. reflexivity.
Qed.

(** C8, amended. For every attribute list and every group name,
    [WithAttrs] and [WithGroup] of the hook wrapper return a new pipeline
    whose sink is the sink of the original, re-scoped, and whose hook table
    is equal to the table of the original: the same four callbacks.  The
    table is a struct held by value: the new pipeline is a new struct with
    its own copy, the original is left as it was, and an assignment to the
    table of the original does not reach the copy. *)
Theorem derived_pipeline_copies_hooks mem p s attrs name :
  mem !! p = Some s ->
  WithAttrs (logHandler (handlerField s) (eventsField s)) attrs
  = logHandler (WithAttrs (handlerField s) attrs) (eventsField s) /\
  WithGroup (logHandler (handlerField s) (eventsField s)) name
  = logHandler (WithGroup (handlerField s) name) (eventsField s) /\
  (exists q mem',
      WithAttrs_ptr mem p attrs = Some (q, mem') /\ q <> p /\
      deref mem' p = deref mem p /\
      deref mem' q = Some (logHandler (WithAttrs (handlerField s) attrs) (eventsField s)) /\
      eventsOf mem' q = eventsOf mem p /\
      forall events, eventsOf (assignEvents mem' p events) q = Some (eventsField s)) /\
  (exists q mem',
      WithGroup_ptr mem p name = Some (q, mem') /\ q <> p /\
      deref mem' p = deref mem p /\
      deref mem' q = Some (logHandler (WithGroup (handlerField s) name) (eventsField s)) /\
      eventsOf mem' q = eventsOf mem p /\
      forall events, eventsOf (assignEvents mem' p events) q = Some (eventsField s)).
Proof.
  intros Hp. split; [reflexivity |]. split; [reflexivity |]. split.
  - unfold WithAttrs_ptr. rewrite Hp.
    set (new := {| handlerField := WithAttrs (handlerField s) attrs;
                   eventsField := eventsField s |}).
    destruct (derive_allocates mem p s new Hp) as (Hne & Hold & Hnew & Hassign).
    unfold allocate in *. cbn [fst snd] in *.
    exists (length mem), (mem ++ [new]).
    split; [reflexivity |].
    split; [exact Hne |]. unfold deref, eventsOf. rewrite Hold, Hnew, Hp.
    repeat split. exact Hassign.
  - unfold WithGroup_ptr. rewrite Hp.
    set (new := {| handlerField := WithGroup (handlerField s) name;
                   eventsField := eventsField s |}).
    destruct (derive_allocates mem p s new Hp) as (Hne & Hold & Hnew & Hassign).
    unfold allocate in *. cbn [fst snd] in *.
    exists (length mem), (mem ++ [new]).
    split; [reflexivity |].
    split; [exact Hne |]. unfold deref, eventsOf. rewrite Hold, Hnew, Hp.
    repeat split. exact Hassign.
Qed.

Lemma derived_pipeline_copies_hooks_witness :
  exists q mem',
    WithGroup_ptr exampleMemory 0%nat "request" = Some (q, mem') /\
    eventsOf mem' q = Some exampleEvents.
Proof.
  destruct (derived_pipeline_copies_hooks exampleMemory 0%nat
              {| handlerField := jsonSink (Stream "stdout") LevelInfo "SALES";
                 eventsField := exampleEvents |}
              [] "request" eq_refl)
    as (_ & _ & _ & q & mem' & Hq & _ & _ & _ & Hev & _).
  exists q, mem'. split; [exact Hq | exact Hev].
Defined.

(** * Further properties *)

(** ** [toRecord] *)

Lemma lastValue_None k attrs :
  lastValue k attrs = None <-> forall v, ~ In (k, v) attrs.
Proof.
  induction attrs as [|[k' v'] attrs IH]; cbn [lastValue slog.Key slog.Val fst snd].
  - split; [intros _ v [] | reflexivity].
  - destruct (lastValue k attrs) as [v|] eqn:Hl.
    + split; [discriminate |]. intros Hno. exfalso.
      assert (Hn : forall v0, ~ In (k, v0) attrs)
        by (intros v0 Hin; apply (Hno v0); right; exact Hin).
      apply IH in Hn. discriminate.
    + destruct (String.eqb_spec k' k) as [-> | Hne].
      * split; [discriminate |]. intros Hno. exfalso. apply (Hno v'). left. reflexivity.
      * split; [| reflexivity]. intros _ v [Heq | Hin].
        -- inversion Heq. contradiction.
        -- exact (proj1 IH eq_refl v Hin).
Qed.

Lemma lastValue_In k attrs v : lastValue k attrs = Some v -> In (k, v) attrs.
Proof.
  induction attrs as [|[k' v'] attrs IH]; cbn [lastValue slog.Key slog.Val fst snd];
    [discriminate |].
  destruct (lastValue k attrs) as [v0|].
  - intros H. right. apply IH. exact H.
  - destruct (String.eqb_spec k' k) as [-> | Hne]; [| discriminate].
    intros H. inversion H. left. reflexivity.
Qed.

Lemma foldl_insert_lookup attrs (m : gmap string slog.any) k :
  foldl (fun (m : gmap string slog.any) (attr : slog.Attr) =>
           <[slog.Key attr := slog.Value_Any (slog.Val attr)]> m) m attrs !! k
  = match lastValue k attrs with
    | Some v => Some (slog.Value_Any v)
    | None => m !! k
    end.
Proof.
  revert m. induction attrs as [|a attrs IH]; intros m; [reflexivity |].
  cbn [foldl lastValue]. rewrite IH.
  destruct (lastValue k attrs); [reflexivity |].
  rewrite lookup_insert. destruct (String.eqb_spec (slog.Key a) k) as [He | Hne].
  - rewrite decide_True by exact He. reflexivity.
  - rewrite decide_False by exact Hne. reflexivity.
Qed.

(** X1. In the record [toRecord] builds, a key holds the value of the
    last attribute of the [slog.Record] with that key, and the keys are
    exactly the keys of the attributes: an earlier attribute with a
    repeated key is lost, nothing else is. *)
Theorem toRecord_last_value_wins r k :
  Record.Attributes (toRecord r) !! k = slog.Value_Any <$> lastValue k (slog.rAttrs r) /\
  (is_Some (Record.Attributes (toRecord r) !! k) <-> exists v, In (k, v) (slog.rAttrs r)).
Proof.
  assert (Hlook : Record.Attributes (toRecord r) !! k
                  = slog.Value_Any <$> lastValue k (slog.rAttrs r)).
  { unfold toRecord. cbn [Record.Attributes]. rewrite foldl_insert_lookup.
    destruct (lastValue k (slog.rAttrs r)); [reflexivity | apply lookup_empty]. }
  split; [exact Hlook |]. rewrite Hlook.
  destruct (lastValue k (slog.rAttrs r)) as [v|] eqn:Hl; cbn.
  - split; [intros _ | eauto]. exists v. apply lastValue_In. exact Hl.
  - split; [intros [x Hx]; discriminate |].
    intros [v Hin]. exfalso. exact (proj1 (lastValue_None k _) Hl v Hin).
Qed.

(** ** Re-scoped pipelines *)

Lemma rescope_sink h op : isWrapper h = false -> isWrapper (rescope h op) = false.
Proof.
  destruct h as [w opts scopes | h events | name enabled scopes]; intros Hw;
    try discriminate; destruct op as [attrs | name']; cbn.
  - destruct (allEmptyGroups attrs); reflexivity.
  - reflexivity.
  - reflexivity.
  - reflexivity.
Qed.

Lemma rescopeAll_sink ops : forall h,
  isWrapper h = false -> isWrapper (rescopeAll h ops) = false.
Proof.
  unfold rescopeAll. induction ops as [|op ops IH]; intros h Hw; [exact Hw |].
  cbn [foldl]. apply IH. apply rescope_sink. exact Hw.
Qed.

Lemma rescopeAll_wrapper ops : forall h events,
  rescopeAll (logHandler h events) ops = logHandler (rescopeAll h ops) events.
Proof.
  unfold rescopeAll. induction ops as [|op ops IH]; intros h events; [reflexivity |].
  cbn [foldl]. destruct op; cbn [rescope WithAttrs WithGroup]; apply IH.
Qed.

(** X3. A pipeline derived from the hook wrapper by any sequence of
    [WithAttrs] and [WithGroup] is the wrapper, with the same hooks,
    around the sink re-scoped by that sequence; handling a record calls
    the hook of the level of the record with the normalised record, which
    holds the attributes of the record only, not the attached ones, then
    calls the re-scoped sink once. *)
Theorem hooks_survive_rescoping rt h events ops ctx r :
  isWrapper h = false ->
  rescopeAll (logHandler h events) ops = logHandler (rescopeAll h ops) events /\
  exists e,
    Handle rt (rescopeAll h ops) ctx r = [e] /\ isSink e = true /\
    Handle rt (rescopeAll (logHandler h events) ops) ctx r
    = callHook (hookFor events (slog.rLevel r)) ctx r ++ [e].
Proof.
  intros Hw. split; [apply rescopeAll_wrapper |].
  rewrite rescopeAll_wrapper.
  apply Handle_wrapper. apply rescopeAll_sink. exact Hw.
Qed.

Lemma hooks_survive_rescoping_witness :
  Handle exampleRuntime
    (rescopeAll (logHandler (jsonSink (Stream "stdout") LevelInfo "SALES") exampleEvents)
       [slog.ScopeAttrs [("db", slog.StringValue "orders")]; slog.ScopeGroup "request"])
    Background
    (slog.Add (slog.NewRecord 1700 slog.LevelError "boom" 4242)
       [slog.AString "user"; slog.AString "ann"])
  = [CallHook "alert" Background
       {| Record.Time := 1700; Record.Message := "boom"; Record.Level := 8;
          Record.Attributes := {[ "user" := slog.AString "ann" ]} |};
     WriteJSON (Stream "stdout")
       [("time", slog.TimeValue 1700); ("level", slog.AnyLevel 8);
        ("file", slog.StringValue "main.go:39"); ("msg", slog.StringValue "boom");
        ("service", slog.StringValue "SALES"); ("db", slog.StringValue "orders");
        ("request", slog.GroupValue [("user", slog.StringValue "ann")])]].
Proof.
  destruct (hooks_survive_rescoping exampleRuntime
              (jsonSink (Stream "stdout") LevelInfo "SALES") exampleEvents
              [slog.ScopeAttrs [("db", slog.StringValue "orders")]; slog.ScopeGroup "request"]
              Background
              (slog.Add (slog.NewRecord 1700 slog.LevelError "boom" 4242)
                 [slog.AString "user"; slog.AString "ann"])
              eq_refl)
    as (_ & e & He & _ & Htr).
  rewrite Htr. vm_compute in He. injection He as <-. vm_compute. reflexivity.
Defined.

Lemma hookFor_unnamed events level :
  isNamedLevel level = false -> hookFor events level = None.
Proof.
  unfold isNamedLevel, hookFor. intros H.
  apply orb_false_elim in H as [H H4]. apply orb_false_elim in H as [H H3].
  apply orb_false_elim in H as [H1 H2].
  apply Z.eqb_neq in H1, H2, H3, H4.
  rewrite !decide_False by assumption. reflexivity.
Qed.

(** X4. A record whose level is not one of the four named levels (one
    that a standard logger made by [NewStdLogger] at such a level
    produces) calls no hook, whatever hooks are set: the wrapper hands it
    to the wrapped handler and does nothing else. *)
Theorem unnamed_level_calls_no_hook rt h events ctx r :
  isNamedLevel (slog.rLevel r) = false ->
  Handle rt (logHandler h events) ctx r = Handle rt h ctx r.
Proof.
  intros Hl. cbn [Handle]. rewrite switch_is_hookFor, (hookFor_unnamed _ _ Hl).
  reflexivity.
Qed.

Lemma unnamed_level_calls_no_hook_witness :
  hookCalls
    (Handle exampleRuntime
       (logHandler (jsonSink (Stream "stdout") LevelInfo "SALES")
          (Events.mk (Some "d") (Some "i") (Some "w") (Some "e")))
       Background (slog.NewRecord 1700 9 "almost fatal" 4242))
  = [].
Proof.
  rewrite (unnamed_level_calls_no_hook exampleRuntime
             (jsonSink (Stream "stdout") LevelInfo "SALES")
             (Events.mk (Some "d") (Some "i") (Some "w") (Some "e"))
             Background (slog.NewRecord 1700 9 "almost fatal" 4242) eq_refl).
  reflexivity.
Defined.

(** ** Loggers without hooks and wrapped handlers *)

Lemma hookFor_empty level : hookFor (Events.mk None None None None) level = None.
Proof. unfold hookFor. repeat case_decide; reflexivity. Qed.

(** X5. A logger built by [New] never calls a hook: for every writer,
    minimum level, method and arguments the trace of a call has no hook
    call, and it has at most one write of the sink. *)
Theorem New_calls_no_hook rt w minLevel serviceName traceFn m ctx msg args :
  let tr := invoke rt (New w minLevel serviceName traceFn) m ctx msg args in
  hookCalls tr = [] /\ (length (sinkCalls tr) <= 1)%nat.
Proof.
  unfold New. cbn zeta. rewrite invoke_unfold, new_discard.
  destruct (bool_decide (w = Discard)); [split; [reflexivity | cbn; lia] |].
  destruct (Enabled (handler (new w minLevel serviceName traceFn
                                (Events.mk None None None None))) ctx (levelOf m)) eqn:Hen.
  - rewrite write_enabled by exact Hen. rewrite new_traceIDFn, new_handler.
    cbn [hasHooks Events.Debug Events.Info Events.Warn Events.Error isNil negb orb].
    rewrite jsonSink_members. destruct traceFn; split; (reflexivity || (cbn; lia)).
  - rewrite write_disabled by exact Hen. split; [reflexivity | cbn; lia].
Qed.

(** X6. A logger that wraps a handler with [NewWithHandler] adds nothing
    of its own: it is never discarding, it calls no trace function, and
    when the handler accepts the level it hands the handler, as it is, one
    record whose attributes are those parsed from the arguments of the
    call; otherwise it does nothing. *)
Theorem NewWithHandler_adds_nothing rt h m ctx msg args :
  invoke rt (NewWithHandler h) m ctx msg args =
  if Enabled h ctx (levelOf m)
  then [CallCallers (depthOf m); CallNow]
       ++ Handle rt h ctx
            {| slog.rTime := Now rt; slog.rMessage := msg; slog.rLevel := levelOf m;
               slog.rPC := Callers rt (depthOf m);
               slog.rAttrs := slog.argsToAttrs args |}
  else [].
Proof.
  rewrite invoke_unfold. cbn [NewWithHandler discard].
  destruct (Enabled h ctx (levelOf m)) eqn:Hen.
  - rewrite write_enabled by exact Hen. reflexivity.
  - apply write_disabled. exact Hen.
Qed.

(** ** The standard logger *)

Lemma endsWithNewline_append s : endsWithNewline (s +:+ newline) = true.
Proof.
  induction s as [|c s IH]; [reflexivity |].
  change (String c s +:+ newline) with (String c (s +:+ newline)).
  destruct (s +:+ newline) eqn:E.
  - destruct s; discriminate.
  - exact IH.
Qed.

Lemma dropLast_append s : dropLast (s +:+ newline) = s.
Proof.
  induction s as [|c s IH]; [reflexivity |].
  change (String c s +:+ newline) with (String c (s +:+ newline)).
  destruct (s +:+ newline) eqn:E.
  - destruct s; discriminate.
  - change (String c (dropLast (String a s0)) = String c s). rewrite IH. reflexivity.
Qed.

Lemma hookFor_hasHooks_false events level :
  hasHooks events = false -> hookFor events level = None.
Proof.
  unfold hasHooks, hookFor. destruct events as [[d|] [i|] [w|] [e|]]; cbn;
    try discriminate; intros _; repeat case_decide; reflexivity.
Qed.

(** X7. The standard logger made by [NewStdLogger] from a logger built by
    [new] goes to the handler of the logger and past the facade: a text
    printed at a level at or above the minimum calls the hook registered
    for that level and writes one object with the text as message (one
    final newline removed), the caller's file and the service name, and
    with no attribute.  The trace function is never called and there is
    no [trace_id], and the [discard] flag is not looked at: this holds for
    [io.Discard] as for any writer. *)
Theorem std_logger_bypasses_facade rt w minLevel serviceName traceFn events level s :
  minLevel <= level ->
  let msg := if endsWithNewline s then dropLast s else s in
  let r := slog.NewRecord (Now rt) level msg (Callers rt 4) in
  StdLogger_Output rt
    (NewStdLogger (new w minLevel serviceName traceFn events) level) s
  = [CallCallers 4; CallNow]
    ++ callHook (hookFor events level) Background r
    ++ [WriteJSON w
          (timeMember (Now rt)
           ++ [("level", slog.AnyLevel level);
               ("file", slog.StringValue (location (Frame rt (Callers rt 4))));
               ("msg", slog.StringValue msg);
               ("service", slog.StringValue serviceName)])].
Proof.
  intros Hl msg r. unfold StdLogger_Output, handlerWriter_Write, NewStdLogger, NewLogLogger.
  cbn [stdHandler stdLevel]. rewrite Enabled_new.
  rewrite (proj2 (Z.leb_le _ _) Hl). cbn [negb].
  assert (Hmsg : (if endsWithNewline (if endsWithNewline s then s else s +:+ newline)
                  then dropLast (if endsWithNewline s then s else s +:+ newline)
                  else (if endsWithNewline s then s else s +:+ newline)) = msg).
  { subst msg. destruct (endsWithNewline s) eqn:E.
    - rewrite E. reflexivity.
    - rewrite endsWithNewline_append. apply dropLast_append. }
  rewrite Hmsg. fold r. rewrite new_handler.
  destruct (hasHooks events) eqn:Hh.
  - cbn [Handle]. rewrite switch_is_hookFor, jsonSink_members.
    cbn [slog.rLevel slog.rTime slog.rPC slog.rMessage slog.rAttrs slog.NewRecord r].
    subst r. cbn. rewrite ?app_nil_r. reflexivity.
  - rewrite (hookFor_hasHooks_false _ level Hh), jsonSink_members.
    subst r. cbn. rewrite ?app_nil_r. reflexivity.
Qed.

Lemma std_logger_bypasses_facade_witness :
  StdLogger_Output exampleRuntime
    (NewStdLogger (new Discard LevelInfo "SALES" (Some exampleTrace) exampleEvents)
       LevelError)
    ("boom" +:+ newline)
  = [CallCallers 4; CallNow;
     CallHook "alert" Background
       (toRecord (slog.NewRecord 1700 LevelError "boom" 0));
     WriteJSON Discard
       [("time", slog.TimeValue 1700); ("level", slog.AnyLevel 8);
        ("file", slog.StringValue ".:0"); ("msg", slog.StringValue "boom");
        ("service", slog.StringValue "SALES")]].
Proof.
  rewrite (std_logger_bypasses_facade exampleRuntime Discard LevelInfo "SALES"
             (Some exampleTrace) exampleEvents LevelError ("boom" +:+ newline)
             ltac:(vm_compute; discriminate)).
  reflexivity.
Defined.

(** ** [BuildInfo] *)

Lemma settingValues_flat Quote settings : forall values,
  settingValues Quote settings values
  = values ++ flat_map (settingArgs Quote) settings.
Proof.
  induction settings as [|s settings IH]; intros values; cbn [settingValues flat_map].
  - symmetry. apply app_nil_r.
  - rewrite IH, <- app_assoc. reflexivity.
Qed.

Lemma argsToAttrs_settings Quote settings rest :
  slog.argsToAttrs (flat_map (settingArgs Quote) settings ++ rest)
  = map (settingAttr Quote) settings ++ slog.argsToAttrs rest.
Proof.
  induction settings as [|s settings IH]; [reflexivity |].
  cbn [flat_map map settingArgs app]. rewrite <- IH. reflexivity.
Qed.

Lemma appendAttrs_text attrs :
  Forall isText attrs -> slog.appendAttrs (Some f) [] attrs = attrs.
Proof.
  induction 1 as [|[k v] attrs [s Hs] _ IH]; [reflexivity |].
  cbn [slog.Val snd] in Hs. subst v.
  unfold slog.appendAttrs in *. cbn [flat_map]. rewrite IH.
  unfold slog.appendAttr. cbn [slog.Key slog.Val fst snd slog.appendKV].
  unfold slog.appendLeaf, slog.replace, f, slog.isEmpty.
  cbn [slog.Key slog.Val fst snd].
  destruct (String.eqb k slog.SourceKey); cbn [slog.Key slog.Val fst snd];
    rewrite andb_false_r; reflexivity.
Qed.

Lemma settingAttr_text Quote settings : Forall isText (map (settingAttr Quote) settings).
Proof.
  induction settings as [|s settings IH]; constructor; [eexists; reflexivity | exact IH].
Qed.

(** X8. On a logger built by [new] that accepts the level of information,
    [BuildInfo] with build information available writes one object: after
    the built-in members and the service name come one member for each
    build setting, in the order of the settings, with key and value quoted
    where [quoteKey] and [quoteValue] ask for it, then [goversion] and
    [modversion], then the trace id when a trace function is set.  The
    arguments it passes are always pairs: no setting is lost or stored
    under ["!BADKEY"], whatever the keys and values are. *)
Theorem BuildInfo_logs_every_setting rt Quote info w minLevel serviceName traceFn events ctx :
  w <> Discard -> minLevel <= LevelInfo ->
  sinkCalls (BuildInfo rt Quote (Some info)
               (new w minLevel serviceName traceFn events) ctx)
  = [WriteJSON w
       (builtins rt serviceName MInfo "build info"
        ++ map (settingAttr Quote) (debug.Settings info)
        ++ [("goversion", slog.StringValue (debug.GoVersion info));
            ("modversion", slog.StringValue (debug.MainVersion info))]
        ++ traceMember traceFn ctx)].
Proof.
  intros Hw Hl. cbn [BuildInfo].
  change (Info rt ?log ctx ?msg ?args) with (invoke rt log MInfo ctx msg args).
  rewrite emitted_members by assumption.
  rewrite settingValues_flat. cbn [app].
  assert (Hargs : slog.argsToAttrs
            (tracedArgs traceFn ctx
               ((flat_map (settingArgs Quote) (debug.Settings info)
                 ++ [slog.AString "goversion"; slog.AString (debug.GoVersion info)])
                ++ [slog.AString "modversion"; slog.AString (debug.MainVersion info)]))
          = map (settingAttr Quote) (debug.Settings info)
            ++ [("goversion", slog.StringValue (debug.GoVersion info));
                ("modversion", slog.StringValue (debug.MainVersion info))]
            ++ traceMember traceFn ctx).
  { destruct traceFn as [fn|]; cbn [tracedArgs traceMember];
      rewrite <- !app_assoc, argsToAttrs_settings; reflexivity. }
  rewrite Hargs. rewrite appendAttrs_text; [reflexivity |].
  apply Forall_app. split; [apply settingAttr_text |].
  apply Forall_app. split.
  - repeat constructor; eexists; reflexivity.
  - destruct traceFn; repeat constructor; eexists; reflexivity.
Qed.

Lemma BuildInfo_logs_every_setting_witness :
  sinkCalls (BuildInfo exampleRuntime QuoteASCII
               (Some {| debug.GoVersion := "go1.22.0"; debug.MainVersion := "(devel)";
                        debug.Settings :=
                          [{| debug.Key := "-ldflags"; debug.Value := "-s -w" |};
                           {| debug.Key := EmptyString; debug.Value := "x=y" |};
                           {| debug.Key := "vcs"; debug.Value := "git" |}] |})
               (new (Stream "stdout") LevelInfo "SALES" (Some exampleTrace) exampleEvents)
               Background)
  = [WriteJSON (Stream "stdout")
       [("time", slog.TimeValue 1700); ("level", slog.AnyLevel 0);
        ("file", slog.StringValue "main.go:39");
        ("msg", slog.StringValue "build info");
        ("service", slog.StringValue "SALES");
        ("-ldflags", slog.StringValue (QuoteASCII "-s -w"));
        (QuoteASCII EmptyString, slog.StringValue "x=y");
        ("vcs", slog.StringValue "git");
        ("goversion", slog.StringValue "go1.22.0");
        ("modversion", slog.StringValue "(devel)");
        ("trace_id", slog.StringValue "T1")]].
Proof.
  rewrite (BuildInfo_logs_every_setting exampleRuntime QuoteASCII _ (Stream "stdout")
             LevelInfo "SALES" (Some exampleTrace) exampleEvents Background
             ltac:(discriminate) ltac:(vm_compute; discriminate)).
  reflexivity.
Defined.



Lemma ContainsAny_cons s c chars :
  ContainsAny s (c :: chars) = ContainsAny s [c] || ContainsAny s chars.
Proof.
  unfold ContainsAny. induction (list_ascii_of_string s) as [|x l IH]; [reflexivity |].
  cbn [existsb] in *. rewrite IH, orb_false_r.
  generalize (existsb (fun c0 => Ascii.eqb c0 c || false) l) as p.
  generalize (existsb (fun c0 => existsb (Ascii.eqb c0) chars) l) as q.
  intros q p.
  destruct (Ascii.eqb x c), (existsb (Ascii.eqb x) chars), p, q; reflexivity.
Qed.

(** X10. A key needs quoting exactly when it is empty, holds an equals
    sign, or would need quoting as a value; so whatever [quoteValue]
    quotes, [quoteKey] quotes as well. *)
Theorem quoteKey_extends_quoteValue s :
  quoteKey s = String.eqb s EmptyString || ContainsAny s ["="%char] || quoteValue s /\
  (quoteValue s = true -> quoteKey s = true).
Proof.
  assert (H : quoteKey s
              = String.eqb s EmptyString || ContainsAny s ["="%char] || quoteValue s).
  { unfold quoteKey, quoteValue, keyChars. rewrite ContainsAny_cons, orb_assoc.
    destruct s; reflexivity. }
  split; [exact H |]. intros Hv. rewrite H, Hv. apply orb_true_r.
Qed.

Lemma quoteKey_extends_quoteValue_witness :
  quoteKey "build mode" = true /\ quoteKey "CGO_ENABLED" = false /\
  quoteKey "a=b" = true /\ quoteValue "a=b" = false.
Proof.
  split; [apply (proj2 (quoteKey_extends_quoteValue "build mode")); reflexivity |].
  repeat split.
Defined.

(** ** The log filter, line by line *)

Lemma append_assoc (a b c : string) : (a +:+ b) +:+ c = a +:+ (b +:+ c).
Proof.
  induction a as [|x a IH]; unfold_append; [reflexivity | rewrite IH; reflexivity].
Qed.

Lemma append_empty_r (a : string) : a +:+ EmptyString = a.
Proof.
  induction a as [|x a IH]; unfold_append; [reflexivity | rewrite IH; reflexivity].
Qed.

Lemma substring_prefix (a b : string) :
  String.substring 0 (String.length a) (a +:+ b) = a.
Proof.
  induction a as [|x a IH]; unfold_append; cbn [String.length String.substring].
  - destruct b; reflexivity.
  - rewrite IH. reflexivity.
Qed.

Lemma length_append (a b : string) :
  String.length (a +:+ b) = (String.length a + String.length b)%nat.
Proof.
  induction a as [|x a IH]; unfold_append; cbn [String.length];
    [reflexivity | rewrite IH; reflexivity].
Qed.

Lemma cut_separator (a : string) :
  String.substring 0 (String.length (a +:+ ": ") - 2) (a +:+ ": ") = a.
Proof.
  rewrite length_append. cbn [String.length].
  replace (String.length a + 2 - 2)%nat with (String.length a) by lia.
  apply substring_prefix.
Qed.



Section FilterLines.
Variable Unmarshal : string -> option (gmap string logfmt.jvalue).
Variable rangeOrder : gmap string logfmt.jvalue -> list (string * logfmt.jvalue).
Variable fmtOther : bool -> logfmt.jvalue -> string.

#[local] Abbreviation handleLine := (logfmt.handleLine Unmarshal rangeOrder fmtOther).
#[local] Abbreviation loop := (logfmt.loop Unmarshal rangeOrder fmtOther).
#[local] Abbreviation main := (logfmt.main Unmarshal rangeOrder fmtOther).
#[local] Abbreviation format := (logfmt.format rangeOrder fmtOther).

Lemma handleLine_no_filter s :
  handleLine EmptyString s = logfmt.Continue [render Unmarshal rangeOrder fmtOther s].
Proof. unfold logfmt.handleLine, render. destruct (Unmarshal s); reflexivity. Qed.

Lemma loop_no_filter lines : forall stdout,
  loop EmptyString lines stdout
  = logfmt.Exit (stdout ++ map (render Unmarshal rangeOrder fmtOther) lines).
Proof.
  induction lines as [|s lines IH]; intros stdout; cbn [logfmt.loop map].
  - rewrite app_nil_r. reflexivity.
  - rewrite handleLine_no_filter, IH, <- app_assoc. reflexivity.
Qed.

(** X11. Without the flag [-service] the filter never panics and prints
    exactly one line for each line it reads, in the order read: the line
    itself when it does not decode, the formatted fields when it does,
    whatever fields are missing. *)
Theorem no_filter_prints_every_line lines :
  main EmptyString lines
  = logfmt.Exit (map (render Unmarshal rangeOrder fmtOther) lines).
Proof. unfold logfmt.main. cbn [logfmt.ToLower]. apply loop_no_filter. Qed.


Lemma loop_stdout service lines : forall stdout,
  loop service lines stdout = after stdout (loop service lines []).
Proof.
  induction lines as [|s lines IH]; intros stdout; cbn [logfmt.loop].
  - cbn. rewrite app_nil_r. reflexivity.
  - destruct (handleLine service s) as [printed|].
    + rewrite (IH (stdout ++ printed)), (IH ([] ++ printed)).
      destruct (loop service lines []); cbn; rewrite app_assoc; reflexivity.
    + cbn. rewrite app_nil_r. reflexivity.
Qed.

Lemma loop_app service l1 l2 : forall stdout,
  loop service (l1 ++ l2) stdout
  = match loop service l1 stdout with
    | logfmt.Exit out => loop service l2 out
    | logfmt.Crash out => logfmt.Crash out
    end.
Proof.
  induction l1 as [|s l1 IH]; intros stdout; cbn [logfmt.loop app]; [reflexivity |].
  destruct (handleLine service s); [apply IH | reflexivity].
Qed.

Lemma foldl_writeExtra kvs : forall b,
  buf (foldl (writeExtra fmtOther) b kvs) = buf b +:+ logfmt.extras fmtOther kvs.
Proof.
  induction kvs as [|[k v] kvs IH]; intros b; cbn [foldl logfmt.extras].
  - rewrite append_empty_r. reflexivity.
  - rewrite IH. unfold writeExtra. cbn [fst snd].
    destruct (logfmt.isMainField k); [reflexivity |].
    cbn [Builder_WriteString buf]. apply append_assoc.
Qed.

Lemma writeLine_prints m b :
  (writeLine rangeOrder fmtOther m b).1 = logfmt.Continue [format m].
Proof.
  unfold writeLine, logfmt.format, Builder_String. cbn [fst].
  rewrite foldl_writeExtra. cbn [Builder_WriteString Builder_Reset buf].
  unfold_append. reflexivity.
Qed.

Lemma handleLineB_prints service s b :
  (handleLineB Unmarshal rangeOrder fmtOther service s b).1 = handleLine service s.
Proof.
  unfold handleLineB, logfmt.handleLine.
  destruct (Unmarshal s) as [m|]; [| reflexivity].
  destruct (negb (String.eqb service "")); [| apply writeLine_prints].
  destruct (m !! "service") as [[| | |sv| |]|]; try reflexivity.
  destruct (negb (String.eqb (logfmt.ToLower sv) service));
    [reflexivity | apply writeLine_prints].
Qed.

Lemma loopB_loop service lines : forall stdout b,
  loopB Unmarshal rangeOrder fmtOther service lines stdout b = loop service lines stdout.
Proof.
  induction lines as [|s lines IH]; intros stdout b; cbn [loopB logfmt.loop];
    [reflexivity |].
  pose proof (handleLineB_prints service s b) as Hs.
  destruct (handleLineB Unmarshal rangeOrder fmtOther service s b) as [step b'].
  cbn [fst] in Hs. rewrite <- Hs. destruct step; [apply IH | reflexivity].
Qed.

(** X13. The builder that [main] declares once and writes in every
    iteration carries nothing from one line to the next, because it is
    reset before a line is built: whatever the builder holds when a line
    is scanned, the iteration prints what the line alone determines.  So
    a run on two inputs one after the other is the run on the first
    followed by the run on the second, started with an empty builder; and
    a panic is final: when the run on the first input panics, nothing of
    the second is read. *)
Theorem run_of_appended_input flag l1 l2 :
  (forall service s b b',
      (handleLineB Unmarshal rangeOrder fmtOther service s b).1
      = (handleLineB Unmarshal rangeOrder fmtOther service s b').1) /\
  (forall lines, mainB Unmarshal rangeOrder fmtOther flag lines = main flag lines) /\
  mainB Unmarshal rangeOrder fmtOther flag (l1 ++ l2)
  = match mainB Unmarshal rangeOrder fmtOther flag l1 with
    | logfmt.Exit out => after out (mainB Unmarshal rangeOrder fmtOther flag l2)
    | logfmt.Crash out => logfmt.Crash out
    end.
Proof.
  split; [intros service s b b'; rewrite !handleLineB_prints; reflexivity |].
  split; [intros lines; apply loopB_loop |].
  unfold mainB. rewrite !loopB_loop, loop_app.
  destruct (loop (logfmt.ToLower flag) l1 []); [apply loop_stdout | reflexivity].
Qed.

Lemma extras_ends kvs :
  logfmt.extras fmtOther kvs = EmptyString \/
  exists body, logfmt.extras fmtOther kvs = body +:+ ": ".
Proof.
  induction kvs as [|[k v] kvs IH]; [left; reflexivity |].
  cbn [logfmt.extras]. destruct (logfmt.isMainField k); [exact IH |]. right.
  destruct IH as [-> | (body & ->)].
  - exists (k +:+ "[" +:+ logfmt.Sprint_v fmtOther (Some v) +:+ "]").
    rewrite append_empty_r, !append_assoc. reflexivity.
  - exists ((k +:+ "[" +:+ logfmt.Sprint_v fmtOther (Some v) +:+ "]: ") +:+ body).
    rewrite !append_assoc. reflexivity.
Qed.

(** X14. The two bytes [main] cuts off the built string are always there
    and are always the separator that ends the last field: the string in
    the builder is the printed line followed by [": "], whether or not the
    map has fields beside the main ones.  The slice [out[:len(out)-2]] is
    never out of range. *)
Theorem printed_line_is_built_minus_separator m :
  built rangeOrder fmtOther m = format m +:+ ": " /\
  (2 <= String.length (built rangeOrder fmtOther m))%nat.
Proof.
  assert (Hend : exists body, built rangeOrder fmtOther m = body +:+ ": ").
  { unfold built.
    destruct (extras_ends (rangeOrder m)) as [-> | (body & ->)].
    - rewrite append_empty_r. eexists. rewrite <- !append_assoc. reflexivity.
    - eexists. rewrite <- !append_assoc. reflexivity. }
  destruct Hend as (body & Hb).
  assert (Hf : format m = body).
  { change (format m)
      with (String.substring 0 (String.length (built rangeOrder fmtOther m) - 2)
              (built rangeOrder fmtOther m)).
    rewrite Hb. apply cut_separator. }
  rewrite Hf, Hb. split; [reflexivity |].
  rewrite length_append. cbn. lia.
Qed.

End FilterLines.


(** ** The source location *)

(** X15. For a source whose file is a name without slash, alone or after
    a directory and a slash, the function [f] that [new] gives to the JSON
    handler turns the attribute [source] into the attribute [file] with
    the text [name:line]: the directory never shows. *)
Theorem source_becomes_file_name gs fn dir name line :
  name <> EmptyString -> noSlash (list_ascii_of_string name) ->
  f gs ("source", slog.AnySource {| slog.Function := fn; slog.File := name;
                                    slog.Line := line |})
  = ("file", slog.StringValue (name +:+ ":" +:+ pretty line)) /\
  f gs ("source", slog.AnySource {| slog.Function := fn;
                                    slog.File := dir +:+ "/" +:+ name;
                                    slog.Line := line |})
  = ("file", slog.StringValue (name +:+ ":" +:+ pretty line)).
Proof.
  intros Hne Hns. destruct (Base_last_element dir name Hne Hns) as [H1 H2].
  unfold f. cbn [slog.Key slog.Val fst snd slog.File slog.Line].
  change (String.eqb "source" slog.SourceKey) with true. cbn iota.
  rewrite H1, H2. split; reflexivity.
Qed.

Lemma source_becomes_file_name_witness :
  f [] ("source", slog.AnySource {| slog.Function := "main.run";
                                    slog.File := "/home/go/src/sales" +:+ "/" +:+ "main.go";
                                    slog.Line := 39 |})
  = ("file", slog.StringValue "main.go:39").
Proof.
  rewrite (proj2 (source_becomes_file_name [] "main.run" "/home/go/src/sales" "main.go" 39
                    ltac:(discriminate) ltac:(repeat constructor))).
  reflexivity.
Defined.

(** ** The hook of the sales service *)

(** X16. On the logger of the sales service an error writes two lines,
    the alert of the hook first and the error itself second, both on
    standard output; the alert is logged at the level of information,
    where no hook is set, so logging it calls no hook: the hook runs once
    and does not call itself. *)
Theorem sales_alert_precedes_error rt rt' ctx msg args :
  let tr := withHookBodies (fun _ => sendAlert rt') (Error rt salesLog ctx msg args) in
  exists rec alertLine errorLine,
    hookCalls tr = [CallHook "sendAlert" ctx rec] /\
    sinkCalls tr = [WriteJSON (Stream "stdout") alertLine;
                    WriteJSON (Stream "stdout") errorLine] /\
    alertLine = builtins rt' "SALES" MInfo "********** SEND ALERT **********"
                ++ [("trace_id", slog.StringValue EmptyString)] /\
    In ("level", slog.AnyLevel LevelError) errorLine /\
    In ("msg", slog.StringValue msg) errorLine.
Proof.
  intros tr. subst tr.
  change (Error rt salesLog ctx msg args) with (invoke rt salesLog MError ctx msg args).
  unfold salesLog at 1, NewWithEvents.
  rewrite invoke_new_enabled by (discriminate || (vm_compute; discriminate)).
  rewrite jsonSink_members.
  change (hookFor salesEvents (levelOf MError)) with (Some "sendAlert").
  cbn [traceCall callHook app withHookBodies flat_map].
  unfold sendAlert.
  change (Info rt' salesLog ?c ?m ?a) with (invoke rt' salesLog MInfo c m a).
  unfold salesLog, NewWithEvents.
  rewrite invoke_new_enabled by (discriminate || (vm_compute; discriminate)).
  rewrite jsonSink_members.
  change (hookFor salesEvents (levelOf MInfo)) with (@None EventFn).
  cbn [traceCall callHook app].
  eexists. eexists. eexists.
  split; [reflexivity |]. split; [reflexivity |]. split.
  - unfold builtins. rewrite <- app_assoc. reflexivity.
  - split; apply in_or_app; right; cbn; tauto.
Qed.

(** ** When a call writes *)

(** X17. A call on a logger built by [new] does something exactly when
    the writer is not [io.Discard] and the level of the method is at or
    above the minimum level; it then writes one object on the writer.
    Neither the hooks nor the trace function nor the arguments have a say
    in it. *)
Theorem call_writes_iff rt w minLevel serviceName traceFn events m ctx msg args :
  let tr := invoke rt (new w minLevel serviceName traceFn events) m ctx msg args in
  (tr <> [] <-> w <> Discard /\ minLevel <= levelOf m) /\
  (tr <> [] -> exists members, sinkCalls tr = [WriteJSON w members]).
Proof.
  cbn zeta.
  destruct (decide (w = Discard)) as [Hw | Hw].
  - assert (Hnil : invoke rt (new w minLevel serviceName traceFn events) m ctx msg args = []).
    { rewrite invoke_unfold, new_discard, bool_decide_eq_true_2 by exact Hw. reflexivity. }
    rewrite Hnil. split; [split |]; intros H; try contradiction. destruct H. contradiction.
  - destruct (Z.le_gt_cases minLevel (levelOf m)) as [Hl | Hl].
    + assert (Hs := emitted_members rt w minLevel serviceName traceFn events m ctx msg
                      args Hw Hl).
      split; [split; [intros _; split; assumption |] |].
      * intros _ Hnil. rewrite Hnil in Hs. discriminate.
      * intros _. eexists. exact Hs.
    + assert (Hnil : invoke rt (new w minLevel serviceName traceFn events) m ctx msg args
                     = []).
      { rewrite invoke_unfold. destruct (discard _); [reflexivity |].
        apply write_disabled. rewrite Enabled_new. apply Z.leb_gt. exact Hl. }
      rewrite Hnil. split; [split |]; intros H; try contradiction. destruct H. lia.
Qed.

(** ** The filter on the lines of this logger *)

(** X18. With the flag [-service] set the filter does not panic on input
    in which every line that decodes has a string as [service]: the run
    returns. *)
Theorem filter_safe_on_string_services Unmarshal rangeOrder fmtOther flag lines :
  (forall s m, In s lines -> Unmarshal s = Some m ->
               exists sv, m !! "service" = Some (logfmt.JString sv)) ->
  exists out, logfmt.main Unmarshal rangeOrder fmtOther flag lines = logfmt.Exit out.
Proof.
  unfold logfmt.main. generalize (logfmt.ToLower flag) as service. intros service.
  generalize (@nil string) as stdout.
  induction lines as [|s lines IH]; intros stdout Hall; cbn [logfmt.loop]; [eauto |].
  assert (Hline : exists printed,
             logfmt.handleLine Unmarshal rangeOrder fmtOther service s
             = logfmt.Continue printed).
  { unfold logfmt.handleLine. destruct (Unmarshal s) as [m|] eqn:Hm.
    - destruct (Hall s m (or_introl eq_refl) Hm) as (sv & ->).
      destruct (negb (String.eqb service "")); [| eauto].
      destruct (negb (String.eqb (logfmt.ToLower sv) service)); eauto.
    - destruct (String.eqb service ""); eauto. }
  destruct Hline as (printed & ->). apply IH.
  intros s' m' Hin. apply Hall. right. exact Hin.
Qed.

Lemma filter_safe_on_string_services_witness :
  exists out,
    logfmt.main logfmt.decode map_to_list (fun _ _ => EmptyString) "billing"
      [salesLine; "oops {"] = logfmt.Exit out.
Proof.
  apply (filter_safe_on_string_services logfmt.decode map_to_list
           (fun _ _ => EmptyString) "billing" [salesLine; "oops {"]).
  intros s m [<- | [<- | []]] Hm.
  - assert (H : logfmt.decode salesLine = Some salesMap) by (vm_compute; reflexivity).
    rewrite H in Hm. injection Hm as <-. exists "SALES". vm_compute. reflexivity.
  - vm_compute in Hm. discriminate.
Defined.

Lemma call_writes_iff_witness :
  exists members,
    sinkCalls (invoke exampleRuntime
                 (new (Stream "stdout") LevelInfo "SALES" None exampleEvents)
                 MWarn Background "slow" [])
    = [WriteJSON (Stream "stdout") members].
Proof.
  apply (proj2 (call_writes_iff exampleRuntime (Stream "stdout") LevelInfo "SALES" None
                  exampleEvents MWarn Background "slow" [])).
  discriminate.
Defined.
